(** * kt-cli: the download pipeline and the JSON-RPC gateway

    A shallow embedding of [pkg.ApiRequest] (src/pkg/api.go) and of
    [pkg.DownloadFile] in Rocq.  Go code that talks to the outside
    world (the HTTP client, the OpenPGP library, the destination
    writer, the logger, and the package functions whose source is not
    available) is modelled as a tree of effects answered by an
    arbitrary deterministic environment; everything the two functions
    compute themselves is modelled as written. *)

From Stdlib Require Import ZArith Floats.SpecFloat Strings.Byte.
From stdpp Require Import base gmap strings list.

Set Warnings "-register-all".
Local Open Scope string_scope.
Local Open Scope list_scope.
Local Open Scope Z_scope.

(** ** Go values *)

(** The dynamic type [interface{}] as [encoding/json] produces it and as
    the request maps use it: nil, bool, float64, string, []interface{}
    and map[string]interface{}. *)
Inductive value : Type :=
| VNil
| VBool (b : bool)
| VNum (f : spec_float)
| VStr (s : string)
| VList (l : list value)
| VMap (m : gmap string value).

(** Every string that occurs in a value, keys included. *)
Fixpoint strings_of (v : value) : list string :=
  match v with
  | VStr s => [s]
  | VList l => concat (List.map strings_of l)
  | VMap m => map_fold (fun k x acc => k :: strings_of x ++ acc) [] m
  | _ => []
  end.

(** [x == 0] on a float64: both signed zeros, and nothing else. *)
Definition float64_is_zero (f : spec_float) : bool :=
  match f with
  | S754_zero _ => true
  | _ => false
  end.

(** Go's [error] values, as far as the two functions build them. *)
Inductive error : Type :=
| errors_New (text : string)
| fmt_Errorf_s (format : string) (arg : string)
| fmt_Errorf_w (format : string) (wrapped : error).

Definition ErrShortWrite : error := errors_New "short write".
Definition errInvalidWrite : error := errors_New "invalid write result".

(** int64 arithmetic wraps around. *)
Definition wrap64 (z : Z) : Z := (z + 2 ^ 63) mod 2 ^ 64 - 2 ^ 63.

(** ** Records *)

(** api.go, [ApiResponse]. *)
Record ApiResponse : Type := mkApiResponse {
  JsonRPC : string;
  ID : Z;
  Error_Code : Z;
  Error_Message : string;
  Result : gmap string value        (* a nil map reads as the empty map *)
}.

(** [pkg.CryptoInfo]: the four fields the callers set and read. *)
Record CryptoInfo : Type := mkCryptoInfo {
  EncryptedCryptoKey : string;
  PublicKey : string;
  Password : string;
  RawCryptoKey : string
}.

(** A reader that ends: the chunks successive [Read] calls deliver, and
    how the stream ends ([None] is [io.EOF], [Some e] a read error). *)
Record stream : Type := mkStream {
  chunks : list (list byte);
  final : option error
}.

Definition content (b : stream) : list byte := concat (chunks b).

(** [http.Request] as [ApiRequest] fills it, and [http.Response] as the
    two functions read it. *)
Record Request : Type := mkRequest {
  Method : string;
  URL : string;
  Header : list (string * list string);
  ReqBody : list byte
}.

Record Response : Type := mkResponse {
  Status : string;
  StatusCode : Z;
  Body : stream
}.

(** A [crypto.KeyRing] pointer handed out by the environment. *)
Inductive KeyRing : Type := KeyRingRef (id : nat).

(** Arguments of a log line. *)
Inductive logarg : Type := LStr (s : string) | LInt (z : Z).

(** ** Effects *)

(** The calls that leave the two functions.  Functions of a Go library
    answer the way their documentation says (a result or an error); the
    two package functions whose source is not at hand answer with a Go
    result tuple, pointers possibly nil. *)
Inductive effect : Type -> Type :=
| client_Do (req : Request) : effect (error + Response)
| json_Decode (body : stream) : effect (error + ApiResponse)
| Body_Close (resp : Response) : effect unit
| http_Get (url : string) : effect (error + Response)
| currentLogger (format : string) (args : list logarg) : effect unit
| GetCryptoInfo (token diskId password : string)
    : effect (option CryptoInfo * option error)
| GetKeyRings (publicKey privateKey : string) (passphrase : list byte)
    : effect (option KeyRing * option KeyRing * option error)
| KeyRing_Decrypt (ring : KeyRing) (message : list byte)
    : effect (error + list byte)
| KeyRing_ClearPrivateParams (ring : KeyRing) : effect bool
| Writer_Write (p : list byte) : effect (Z * option error).

(** A Go function body: it goes on with a value, returns from the
    function, panics, or performs an effect and continues. *)
Inductive prog (R A : Type) : Type :=
| Pure (a : A)
| Return (r : R)
| Panic (msg : string)
| Vis {X : Type} (e : effect X) (k : X -> prog R A).

Arguments Pure {R A} a.
Arguments Return {R A} r.
Arguments Panic {R A} msg.
Arguments Vis {R A X} e k.

Fixpoint bind {R A B} (m : prog R A) (f : A -> prog R B) : prog R B :=
  match m with
  | Pure a => f a
  | Return r => Return r
  | Panic msg => Panic msg
  | Vis e k => Vis e (fun x => bind (k x) f)
  end.

#[export] Instance prog_ret {R} : MRet (prog R) := fun A a => Pure a.
#[export] Instance prog_bind {R} : MBind (prog R) := fun A B f m => bind m f.

Notation "x <- m ;; k" := (bind m (fun x => k))
  (at level 100, m at next level, right associativity, only parsing).

Definition trigger {R X} (e : effect X) : prog R X := Vis e Pure.

(** A call of another function of the package: its [return] ends the
    callee, not the caller. *)
Fixpoint call {R A} (body : prog A A) : prog R A :=
  match body with
  | Pure a => Pure a
  | Return a => Pure a
  | Panic msg => Panic msg
  | Vis e k => Vis e (fun x => call (k x))
  end.

(** [defer e]: the effect runs when the rest of the body leaves the
    function, whether by return or by panic. *)
Fixpoint defer {R A X} (e : effect X) (rest : prog R A) : prog R A :=
  match rest with
  | Pure a => Vis e (fun _ => Pure a)
  | Return r => Vis e (fun _ => Return r)
  | Panic msg => Vis e (fun _ => Panic msg)
  | Vis e' k => Vis e' (fun x => defer e (k x))
  end.

(** A failed type assertion [x.(T)] and a nil dereference. *)
Definition assert_map {R} (v : option value) : prog R (gmap string value) :=
  match v with
  | Some (VMap m) => Pure m
  | _ => Panic "interface conversion: interface {} is not map[string]interface {}"
  end.

Definition assert_string {R} (v : option value) : prog R string :=
  match v with
  | Some (VStr s) => Pure s
  | _ => Panic "interface conversion: interface {} is not string"
  end.

Definition assert_bool {R} (v : option value) : prog R bool :=
  match v with
  | Some (VBool b) => Pure b
  | _ => Panic "interface conversion: interface {} is not bool"
  end.

Definition deref {R A} (p : option A) : prog R A :=
  match p with
  | Some a => Pure a
  | None => Panic "invalid memory address or nil pointer dereference"
  end.

(** ** Running a body against an environment *)

(** What an observer of a run sees: each call that left the function,
    with the answer it got. *)
Inductive event : Type :=
| Ev_client_Do (req : Request) (res : error + Response)
| Ev_json_Decode (body : stream) (res : error + ApiResponse)
| Ev_Body_Close (resp : Response)
| Ev_http_Get (url : string) (res : error + Response)
| Ev_currentLogger (format : string) (args : list logarg)
| Ev_GetCryptoInfo (token diskId password : string)
    (res : option CryptoInfo * option error)
| Ev_GetKeyRings (publicKey privateKey : string) (passphrase : list byte)
    (res : option KeyRing * option KeyRing * option error)
| Ev_KeyRing_Decrypt (ring : KeyRing) (message : list byte)
    (res : error + list byte)
| Ev_KeyRing_ClearPrivateParams (ring : KeyRing) (res : bool)
| Ev_Writer_Write (p : list byte) (res : Z * option error).

Definition observe {X : Type} (e : effect X) : X -> event :=
  match e in effect X return X -> event with
  | client_Do req => Ev_client_Do req
  | json_Decode body => Ev_json_Decode body
  | Body_Close resp => fun _ => Ev_Body_Close resp
  | http_Get url => Ev_http_Get url
  | currentLogger format args => fun _ => Ev_currentLogger format args
  | GetCryptoInfo token diskId password => Ev_GetCryptoInfo token diskId password
  | GetKeyRings pub priv pass => Ev_GetKeyRings pub priv pass
  | KeyRing_Decrypt ring message => Ev_KeyRing_Decrypt ring message
  | KeyRing_ClearPrivateParams ring => Ev_KeyRing_ClearPrivateParams ring
  | Writer_Write p => Ev_Writer_Write p
  end.

Inductive outcome (R A : Type) : Type :=
| Done (a : A)
| Returned (r : R)
| Panicked (msg : string).

Arguments Done {R A} a.
Arguments Returned {R A} r.
Arguments Panicked {R A} msg.

Section Run.
Context {St : Type}.
Variable handle : forall X, effect X -> St -> X * St.

Fixpoint run {R A} (m : prog R A) (s : St) : outcome R A * St * list event :=
  match m with
  | Pure a => (Done a, s, [])
  | Return r => (Returned r, s, [])
  | Panic msg => (Panicked msg, s, [])
  | Vis e k =>
      let '(x, s1) := handle _ e s in
      let '(o, s2, tr) := run (k x) s1 in
      (o, s2, observe e x :: tr)
  end.
End Run.

(** ** The package *)

Module pkg.

(** api.go: [ktUrl], [apiUrl]. *)
Definition ktUrl : string := "https://resistance.go-kt.com".
Definition apiUrl : string := ktUrl +:+ "/json-rpc".

(** What [ApiRequest] hands back: the caller's params map as the call
    leaves it ([None] when the caller passed nil), and the Go result
    pair of an [ApiResponse] pointer and an error. *)
Definition ApiResult : Type :=
  option (gmap string value) * (error + ApiResponse).

(** What [DownloadFile] returns: [(fileName, numBytes, err)]. *)
Definition DownloadResult : Type := string * Z * option error.

Section Package.
(** The helpers of the package that the two functions use and whose
    source is not at hand: [jsonToReader] (nil when the value cannot
    be serialised) and the method [IsCryptoReady] of [CryptoInfo]. *)
Variable jsonToReader : value -> option (list byte).
Variable IsCryptoReady : CryptoInfo -> bool.

(** api.go, [ApiRequest].  [url.Parse] of the constant [apiUrl] does
    not fail, so that branch is left out. *)
Definition ApiRequest (token method : string)
    (params : option (gmap string value)) : prog ApiResult ApiResult :=
  let caller := params in
  (* if params == nil { params = make(map[string]interface{}) } *)
  let params := default ∅ params in
  (* if _, ok := params["token"]; !ok { params["token"] = token } *)
  let params :=
    match params !! "token" with
    | Some _ => params
    | None => <["token" := VStr token]> params
    end in
  (* the write went through the caller's reference, unless it was nil *)
  let caller := (fun _ => params) <$> caller in
  let params : gmap string value :=
    {[ "method" := VStr method; "params" := VMap params ]} in
  match jsonToReader (VMap params) with
  | None => Return (caller, inl (errors_New "failed to convert json to reader"))
  | Some jsonData =>
      let requestUrl := apiUrl in
      r <- trigger (client_Do {|
             Method := "POST";
             URL := requestUrl;
             Header := [("Content-Type", ["application/json-rpc"])];
             ReqBody := jsonData |}) ;;
      match r with
      | inl err => Return (caller, inl err)
      | inr response =>
          defer (Body_Close response) (
            d <- trigger (json_Decode (Body response)) ;;
            match d with
            | inl err => Return (caller, inl err)
            | inr responseData => Return (caller, inr responseData)
            end)
      end
  end.

(** [io.Copy(buf, src)] into a fresh [bytes.Buffer]: the buffer reads
    the source to its end; the error is the read error, if any. *)
Definition io_Copy_Buffer (src : stream) : list byte * Z * option error :=
  (content src, wrap64 (Z.of_nat (length (content src))), final src).

(** [io.Copy(writer, src)] for a destination that is a plain
    [io.Writer]: the loop of [io.copyBuffer]. *)
Fixpoint copyBuffer {R} (reads : list (list byte)) (er : option error)
    (written : Z) : prog R (Z * option error) :=
  match reads with
  | [] => Pure (written, er)
  | buf :: rest =>
      let nr := Z.of_nat (length buf) in
      if 0 <? nr then
        w <- trigger (Writer_Write buf) ;;
        let '(nw, ew) := w in
        let invalid := (nw <? 0) || (nr <? nw) in
        let nw := if invalid then 0 else nw in
        let ew := if invalid then Some (default errInvalidWrite ew) else ew in
        let written := wrap64 (written + nw) in
        match ew with
        | Some e => Pure (written, Some e)
        | None =>
            if negb (nr =? nw) then Pure (written, Some ErrShortWrite)
            else copyBuffer rest er written
        end
      else copyBuffer rest er written
  end.

Definition io_Copy {R} (src : stream) : prog R (Z * option error) :=
  copyBuffer (chunks src) (final src) 0.

(** [io.Copy(writer, decrypted.NewReader())]: the reader over the
    plaintext is a [bytes.Reader], so the copy is its [WriteTo], one
    [Write] of everything. *)
Definition bytes_Reader_WriteTo {R} (b : list byte) : prog R (Z * option error) :=
  if bool_decide (b = []) then Pure (0, None)
  else
    w <- trigger (Writer_Write b) ;;
    let '(m, err) := w in
    if Z.of_nat (length b) <? m then Panic "bytes.Reader.WriteTo: invalid Write count"
    else
      let n := wrap64 m in
      if negb (m =? Z.of_nat (length b)) && bool_decide (err = None)
      then Pure (n, Some ErrShortWrite)
      else Pure (n, err).

(** [DownloadFile].  The variable [err] of the encrypted branch is a
    new one ([:=] inside the block), so the [err] tested after the
    branch is the one [io.Copy(buf, resp.Body)] assigned. *)
Definition DownloadFile (token fileId : string)
    (cryptoInfo : option CryptoInfo) : prog DownloadResult DownloadResult :=
  if bool_decide (fileId = "") then
    Return ("", 0, Some (errors_New "file id is required"))
  else
  r <- call (ApiRequest token "files.getById"
               (Some {[ "file" := VStr fileId ]})) ;;
  filesList <- match r.2 with
              | inl err => Return ("", 0, Some err)
              | inr filesList => Pure filesList
              end ;;
  if negb (Error_Code filesList =? 0) then
    Return ("", 0, Some (errors_New (Error_Message filesList)))
  else
  let count := match Result filesList !! "count" with
               | Some (VNum f) => f
               | _ => S754_zero false
               end in
  if float64_is_zero count then
    Return ("", 0, Some (errors_New "file not found or you have not access to it"))
  else
  match Result filesList !! "list" with
  | None => Return ("", 0, Some (errors_New "bad file get response"))
  | Some rawList =>
  match rawList with
  | VList list =>
  match list with
  | [] =>
    Return ("", 0, Some (errors_New "file not found or you have not access to it"))
  | list_0 :: _ =>
  fileInfo <- assert_map (Some list_0) ;;
  name <- assert_string (fileInfo !! "name") ;;
  encrypted <- assert_bool (fileInfo !! "encrypted") ;;
  mimeType <- assert_string (fileInfo !! "mime") ;;
  disk <- assert_string (fileInfo !! "disk") ;;
  cryptoInfo <-
    (if encrypted && match cryptoInfo with
                     | None => true
                     | Some ci => negb (IsCryptoReady ci)
                     end
     then
       match cryptoInfo with
       | None =>
         Return ("", 0, Some (errors_New
           "file is encrypted and no any crypto cryptoInfo provided"))
       | Some ci =>
         if bool_decide (Password ci = "") && bool_decide (RawCryptoKey ci = "")
         then Return ("", 0, Some (errors_New
                "file is encrypted and no password or keys provided"))
         else if bool_decide (RawCryptoKey ci = "") then
           r <- trigger (GetCryptoInfo token disk (Password ci)) ;;
           let '(cryptoInfo, err) := r in
           match err with
           | Some err =>
             Return ("", 0, Some (fmt_Errorf_w "failed to get crypto info: %w" err))
           | None => Pure cryptoInfo
           end
         else Return ("", 0, Some (errors_New
                "file is encrypted and no any data provided"))
       end
     else Pure cryptoInfo) ;;
  trigger (currentLogger "Downloading file %s (%s)" [LStr name; LStr mimeType]);;
  r <- call (ApiRequest token "files.download"
               (Some {[ "file" := VStr fileId ]})) ;;
  downloadRequest <- match r.2 with
                    | inl err => Return ("", 0, Some err)
                    | inr downloadRequest => Pure downloadRequest
                    end ;;
  if negb (Error_Code downloadRequest =? 0) then
    Return ("", 0, Some (errors_New (Error_Message downloadRequest)))
  else
  match Result downloadRequest !! "url" with
  | Some (VStr fileUrl) =>
  r <- trigger (http_Get fileUrl) ;;
  match r with
  | inl err => Return ("", 0, Some err)
  | inr resp =>
  defer (Body_Close resp) (
  if negb (StatusCode resp =? 200) then
    Return ("", 0, Some (fmt_Errorf_s "bad response status code: %s" (Status resp)))
  else
  copied <-
    (if encrypted return prog DownloadResult (Z * option error) then
       trigger (currentLogger "File is encrypted, downloading first" []);;
       let '(buf, numBytes, err) := io_Copy_Buffer (Body resp) in
       trigger (currentLogger "File downloaded. Decrypting now" []);;
       let message := buf in
       ci <- deref cryptoInfo ;;
       rings <- trigger (GetKeyRings (PublicKey ci) (RawCryptoKey ci)
                           (String.list_byte_of_string (Password ci))) ;;
       let '(_, privateKeyRing, err') := rings in
       match err' with
       | Some err' => Return ("", 0, Some err')
       | None =>
       ring <- deref privateKeyRing ;;
       d <- trigger (KeyRing_Decrypt ring message) ;;
       match d with
       | inl err' => Return ("", 0, Some err')
       | inr decrypted =>
       trigger (KeyRing_ClearPrivateParams ring);;
       trigger (currentLogger "File decrypted. Saving now" []);;
       w <- bytes_Reader_WriteTo decrypted ;;
       let '(numBytes, _) := w in
       Pure (numBytes, err)
       end
       end
     else
       trigger (currentLogger "File is not encrypted, downloading as-is" []);;
       io_Copy (Body resp)) ;;
  let '(numBytes, err) := copied in
  match err with
  | Some err => Return ("", 0, Some err)
  | None =>
    trigger (currentLogger "Download is done (%d bytes)" [LInt numBytes]);;
    Return (name, numBytes, None)
  end)
  end
  | _ => Return ("", 0, Some (errors_New "failed to get file url"))
  end
  end
  | _ => Return ("", 0, Some (errors_New "files list parameter is not a list itself"))
  end
  end.

(** [io.ReadAll(src)]: everything read up to the end of the source,
    and the read error, if any. *)
Definition io_ReadAll (src : stream) : list byte * option error :=
  (content src, final src).

(** api.go, [CheckApiAlive].  The GET goes through the client of
    [KtCustomClient]; the model has one GET effect for every client. *)
Definition CheckApiAlive : prog bool bool :=
  r <- trigger (http_Get (ktUrl +:+ "/ping")) ;;
  match r with
  | inl err => Return false
  | inr response =>
      defer (Body_Close response) (
        let '(text, err) := io_ReadAll (Body response) in
        match err with
        | Some err => Return false
        | None =>
            Return ((StatusCode response =? 200)
                    || bool_decide (String.string_of_list_byte text = "Pong!"))
        end)
  end.

End Package.

End pkg.

(** ** The command-line actions *)

Module internal.

(** [Config], as far as the actions read and set it. *)
Record Config : Type := mkConfig { Token : string }.

(** [pkg.Disk], as [ActionGetKeys] reads it. *)
Record Disk : Type := mkDisk {
  Disk_ID : string;
  Disk_CryptoKey : string;
  Disk_PublicKey : string
}.

(** What a print call is given: a format with its arguments, or the
    text of an error ([err.Error()]). *)
Inductive message : Type :=
| Text (format : string) (args : list logarg)
| ErrorText (e : error).

(** Where an upload reads from. *)
Inductive source : Type :=
| Stdin
| FileAt (path : string).

(** The calls that leave the actions: the printers, the terminal, the
    file system, the functions of this package and of [pkg] whose
    source is not at hand, and the calls of the functions of [pkg]
    modelled above.  A function that sets fields of an object it is
    given by pointer answers with the object as it leaves it. *)
Inductive cli_effect : Type -> Type :=
| Print (msg : message) : cli_effect unit
| PrintError (msg : message) : cli_effect unit
| fmt_Print (text : string) : cli_effect unit
| flag_PrintDefaults : cli_effect unit
| CheckTokenAndAssign (token : string) (config : Config)
    : cli_effect (option error * Config)
| terminal_ReadPassword (fd : Z) : cli_effect (list byte * option error)
| DiskIdOrDefault (config : Config) (id : string)
    : cli_effect (string * Disk * option error)
| TryGetReady (cryptoInfo : CryptoInfo) (token diskId : string)
    : cli_effect (option error * CryptoInfo)
| os_WriteFile (name : string) (data : list byte) (perm : Z)
    : cli_effect (option error)
| ScanOrDefault (prompt def : string) : cli_effect string
| os_Stat (path : string) : cli_effect (error + bool)
| os_Open (path : string) : cli_effect (option error)
| NewDefaultCryptoInfo : cli_effect (option CryptoInfo)
| UploadFile (token name mime disk folder : string)
    (cryptoInfo : option CryptoInfo) (reader : source) : cli_effect (option error)
| in_pkg {X : Type} (e : effect X) : cli_effect X.

(** The body of an action, built like [prog]. *)
Inductive action (R A : Type) : Type :=
| Next (a : A)
| Leave (r : R)
| Crash (msg : string)
| Call {X : Type} (e : cli_effect X) (k : X -> action R A).

Arguments Next {R A} a.
Arguments Leave {R A} r.
Arguments Crash {R A} msg.
Arguments Call {R A X} e k.

Fixpoint and_then {R A B} (m : action R A) (f : A -> action R B) : action R B :=
  match m with
  | Next a => f a
  | Leave r => Leave r
  | Crash msg => Crash msg
  | Call e k => Call e (fun x => and_then (k x) f)
  end.

Declare Scope action_scope.
Delimit Scope action_scope with action.
Notation "x <- m ;; k" := (and_then m (fun x => k))
  (at level 100, m at next level, right associativity, only parsing) : action_scope.
Notation "m ;;; k" := (and_then m (fun _ => k))
  (at level 100, right associativity, only parsing) : action_scope.
Local Open Scope action_scope.

Definition perform {R X} (e : cli_effect X) : action R X := Call e Next.

(** A call of a function of [pkg]. *)
Fixpoint call_pkg {R A} (body : prog A A) : action R A :=
  match body with
  | Pure a => Next a
  | Return a => Next a
  | Panic msg => Crash msg
  | Vis e k => Call (in_pkg e) (fun x => call_pkg (k x))
  end.

Inductive cli_event : Type :=
| Event {X : Type} (e : cli_effect X) (x : X).

Section Run.
Context {St : Type}.
Variable handle : forall X, cli_effect X -> St -> X * St.

Fixpoint run_action {R A} (m : action R A) (s : St)
  : outcome R A * St * list cli_event :=
  match m with
  | Next a => (Done a, s, [])
  | Leave r => (Returned r, s, [])
  | Crash msg => (Panicked msg, s, [])
  | Call e k =>
      let '(x, s1) := handle _ e s in
      let '(o, s2, tr) := run_action (k x) s1 in
      (o, s2, Event e x :: tr)
  end.
End Run.

Section Actions.
(** The method [IsCryptoReady] of [pkg.CryptoInfo], as in [pkg]. *)
Variable IsCryptoReady : CryptoInfo -> bool.

(** [ActionPing]. *)
Definition ActionPing : action unit unit :=
  alive <- call_pkg pkg.CheckApiAlive ;;
  if alive then
    perform (Print (Text "API is alive" [])) ;;; Leave tt
  else
    perform (PrintError (Text "API is not alive" [])) ;;; Leave tt.

(** [ActionDefault]; [Auth] is the value of the token flag.  The
    action returns the configuration as it leaves it. *)
Definition ActionDefault (Auth : string) (config : Config) : action Config Config :=
  if negb (bool_decide (Auth = "")) then
    r <- perform (CheckTokenAndAssign (Token config) config) ;;
    let '(_, config) := r in
    perform (Print (Text "Token is validated and saved" [])) ;;;
    Leave config
  else
    perform flag_PrintDefaults ;;; Leave config.


(** [ActionUpload]; [UploadDisk], [UploadName], [Upload] and
    [UploadFolder] are the values of the flags. *)
Definition ActionUpload (UploadDisk UploadName Upload UploadFolder : string)
    (config : Config) (isStdIn : bool) : action unit unit :=
  r <- perform (DiskIdOrDefault config UploadDisk) ;;
  let '(UploadDisk, _, _) := r in
  chosen <-
    (if isStdIn return action unit (string * source) then
       let name := UploadName in
       if bool_decide (name = "") then
         perform (PrintError (Text
           "File name is required for stdin upload. Use -act.upload.name flag" [])) ;;;
         Leave tt
       else Next (name, Stdin)
     else
       path <-
         (if bool_decide (Upload = "") then
            path <- perform (ScanOrDefault "Enter file path: " "") ;;
            if bool_decide (path = "") then
              perform (PrintError (Text "File path is required" [])) ;;; Leave tt
            else Next path
          else Next Upload) ;;
       fileInfo <- perform (os_Stat path) ;;
       match fileInfo with
       | inl _ => perform (PrintError (Text "Failed to access file" [])) ;;; Leave tt
       | inr IsDir =>
           if IsDir then
             perform (PrintError (Text "Directory uploading is not supported yet" [])) ;;;
             Leave tt
           else
             err <- perform (os_Open path) ;;
             match err with
             | Some _ => perform (PrintError (Text "Failed to open file" [])) ;;; Leave tt
             | None =>
                 (* file.Name() is the name given to os.Open *)
                 if negb (bool_decide (UploadName = "")) then Next (UploadName, FileAt path)
                 else Next (path, FileAt path)
             end
       end) ;;
  let '(name, reader) := chosen in
  cryptoInfo <- perform NewDefaultCryptoInfo ;;
  err <- perform (UploadFile (Token config) name "" UploadDisk UploadFolder
                    cryptoInfo reader) ;;
  match err with
  | Some err => perform (PrintError (ErrorText err)) ;;; Leave tt
  | None => Leave tt
  end.

(** [ActionAskForToken]; [NotInteractive] is the value of the flag.
    [err.Error()] on a nil error is a nil dereference.  The action
    returns the configuration as it leaves it. *)
Definition ActionAskForToken (NotInteractive : bool) (config : Config)
  : action Config Config :=
  if negb (bool_decide (Token config = "")) && NotInteractive then Leave config
  else
    perform (Print (Text
      "Enter your access token to use most functions or leave it blank to proceed with anonymous requests.
 When you enter your password, the characters will not be displayed.
 This is a security measure to prevent it from being stored in SSH logs.
" [])) ;;;
    perform (fmt_Print "Access token: ") ;;;
    r <- perform (terminal_ReadPassword 0) ;;
    let '(password, err) := r in
    if bool_decide (err = None) && (0 <? Z.of_nat (length password)) then
      r <- perform (CheckTokenAndAssign (String.string_of_list_byte password) config) ;;
      let '(cerr, config) := r in
      match cerr with
      | Some _ =>
          (* config.Token = string(password) *)
          let config := {| Token := String.string_of_list_byte password |} in
          Leave config
      | None => Leave config
      end
    else
      match err with
      | Some err => perform (PrintError (ErrorText err)) ;;; Leave config
      | None => Crash "invalid memory address or nil pointer dereference"
      end.

End Actions.

(** The lines an action printed, in order: [true] marks [PrintError]. *)
Definition printed (tr : list cli_event) : list (bool * message) :=
  omap (fun ev => match ev with
                  | Event (Print msg) _ => Some (false, msg)
                  | Event (PrintError msg) _ => Some (true, msg)
                  | _ => None
                  end) tr.


(** The uploads an action started: name, disk and source. *)
Definition uploads (tr : list cli_event) : list (string * string * source) :=
  omap (fun ev => match ev with
                  | Event (UploadFile _ name _ disk _ _ reader) _ =>
                      Some (name, disk, reader)
                  | _ => None
                  end) tr.

(** The calls of [pkg] inside an action, as [pkg] records them. *)
Definition pkg_events (tr : list cli_event) : list event :=
  omap (fun ev => match ev with
                  | Event (in_pkg e) x => Some (observe e x)
                  | _ => None
                  end) tr.

(** What the terminal answered, what [CheckTokenAndAssign] was asked
    and answered, the CryptoInfo objects [TryGetReady] left without
    error, and what [os.Stat] said of the paths that exist (true for
    a directory). *)
Definition passwords (tr : list cli_event) : list (list byte * option error) :=
  omap (fun ev => match ev with
                  | Event (terminal_ReadPassword _) answer => Some answer
                  | _ => None
                  end) tr.

Definition checks (tr : list cli_event) : list (string * option error * Config) :=
  omap (fun ev => match ev with
                  | Event (CheckTokenAndAssign token _) (err, config) =>
                      Some (token, err, config)
                  | _ => None
                  end) tr.


Definition disks (tr : list cli_event) : list (string * Disk * option error) :=
  omap (fun ev => match ev with
                  | Event (DiskIdOrDefault _ _) answer => Some answer
                  | _ => None
                  end) tr.

Definition stats (tr : list cli_event) : list (string * bool) :=
  omap (fun ev => match ev with
                  | Event (os_Stat path) (inr IsDir) => Some (path, IsDir)
                  | _ => None
                  end) tr.

(** How the uploads an action started ended. *)
Definition upload_results (tr : list cli_event) : list (option error) :=
  omap (fun ev => match ev with
                  | Event (UploadFile _ _ _ _ _ _ _) err => Some err
                  | _ => None
                  end) tr.

(** The error lines among the printed lines. *)
Definition error_lines (tr : list cli_event) : list message :=
  omap (fun line : bool * message => if line.1 then Some line.2 else None)
       (printed tr).

End internal.

(** ** Reading a trace *)

(** The JSON-RPC requests that went out, in order. *)
Definition requests (tr : list event) : list Request :=
  omap (fun ev => match ev with Ev_client_Do req _ => Some req | _ => None end) tr.

(** The content URLs that were fetched. *)
Definition fetches (tr : list event) : list string :=
  omap (fun ev => match ev with Ev_http_Get url _ => Some url | _ => None end) tr.

(** The calls of [Write] on the destination, with the count each one
    reported. *)
Definition writes (tr : list event) : list (list byte * Z) :=
  omap (fun ev => match ev with
                  | Ev_Writer_Write p (n, _) => Some (p, n)
                  | _ => None
                  end) tr.

(** The bytes the destination took: of each [Write], as many as it
    reported. *)
Definition written_bytes (tr : list event) : list byte :=
  concat (List.map (fun w => take (Z.to_nat w.2) w.1) (writes tr)).

(** The key rings whose private parameters were cleared. *)
Definition clears (tr : list event) : list KeyRing :=
  omap (fun ev => match ev with
                  | Ev_KeyRing_ClearPrivateParams ring _ => Some ring
                  | _ => None
                  end) tr.

(** The key rings that [GetKeyRings] handed out unlocked. *)
Definition unlocked (tr : list event) : list KeyRing :=
  omap (fun ev => match ev with
                  | Ev_GetKeyRings _ _ _ (_, Some ring, None) => Some ring
                  | _ => None
                  end) tr.

(** The bodies of the content responses that were fetched. *)
Definition fetched_bodies (tr : list event) : list stream :=
  omap (fun ev => match ev with
                  | Ev_http_Get _ (inr resp) => Some (Body resp)
                  | _ => None
                  end) tr.

(** The calls of [Decrypt], and the errors of those that failed. *)
Definition decrypts (tr : list event) : list (KeyRing * list byte) :=
  omap (fun ev => match ev with
                  | Ev_KeyRing_Decrypt ring message _ => Some (ring, message)
                  | _ => None
                  end) tr.

Definition decrypt_errors (tr : list event) : list error :=
  omap (fun ev => match ev with
                  | Ev_KeyRing_Decrypt _ _ (inl e) => Some e
                  | _ => None
                  end) tr.

(** The error results of the calls that unlock the private key:
    [GetCryptoInfo] and [GetKeyRings]. *)
Definition resolve_results (tr : list event) : list (option error) :=
  omap (fun ev => match ev with
                  | Ev_GetCryptoInfo _ _ _ (_, err) => Some err
                  | _ => None
                  end) tr.

Definition keyring_results (tr : list event) : list (option error) :=
  omap (fun ev => match ev with
                  | Ev_GetKeyRings _ _ _ (_, _, err) => Some err
                  | _ => None
                  end) tr.

(** No [Write] comes before a [Decrypt] that succeeded; that [Decrypt]
    was given the whole body that was fetched, and every [Write] after
    it is handed its plaintext. *)
Fixpoint delivery_guarded (fetched : option (list byte)) (tr : list event) : Prop :=
  match tr with
  | [] => True
  | Ev_http_Get _ (inr resp) :: tr' =>
      delivery_guarded (Some (content (Body resp))) tr'
  | Ev_KeyRing_Decrypt _ message (inr plain) :: tr' =>
      fetched = Some message /\ Forall (fun w => w.1 = plain) (writes tr')
  | Ev_Writer_Write _ _ :: _ => False
  | _ :: tr' => delivery_guarded fetched tr'
  end.

(** The request value [ApiRequest] serialises for a call with the
    params map [{"file": fileId}]. *)
Definition file_request (method token fileId : string) : value :=
  VMap {[ "method" := VStr method;
          "params" := VMap {[ "file" := VStr fileId; "token" := VStr token ]} ]}.

(** The [http.Request] around a serialised body. *)
Definition post (jsonData : list byte) : Request :=
  {| Method := "POST";
     URL := pkg.apiUrl;
     Header := [("Content-Type", ["application/json-rpc"])];
     ReqBody := jsonData |}.

(** The params map [ApiRequest] transmits for the map it was given. *)
Definition transmitted_params (token : string)
    (params : option (gmap string value)) : gmap string value :=
  match params with
  | None => {[ "token" := VStr token ]}
  | Some m => if bool_decide (is_Some (m !! "token")) then m
              else <["token" := VStr token]> m
  end.

(** The request value around a params map. *)
Definition rpc_request (method : string) (params : gmap string value) : value :=
  VMap {[ "method" := VStr method; "params" := VMap params ]}.

(** The caller's map has changed across a call. *)
Definition mutated (before after : option (gmap string value)) : Prop :=
  before <> after.

(** How a call of [ApiRequest] can go: nothing is sent when the
    request cannot be serialised; otherwise one request goes out, and
    the answer is the transport error or what the decoder made of
    the response body, which is closed afterwards. *)
Inductive gateway (jsonToReader : value -> option (list byte)) (body : value)
  : list event -> error + ApiResponse -> Prop :=
| gateway_unserialisable :
    jsonToReader body = None ->
    gateway jsonToReader body []
      (inl (errors_New "failed to convert json to reader"))
| gateway_transport jsonData err :
    jsonToReader body = Some jsonData ->
    gateway jsonToReader body [Ev_client_Do (post jsonData) (inl err)] (inl err)
| gateway_answer jsonData response d :
    jsonToReader body = Some jsonData ->
    gateway jsonToReader body
      [Ev_client_Do (post jsonData) (inr response);
       Ev_json_Decode (Body response) d;
       Ev_Body_Close response] d.

(** The response shape of the metadata lookup, as [DownloadFile] reads
    it: no API error, a non-zero count, and a list whose first element
    is an object with the four fields at their types. *)
Record file_metadata (r : ApiResponse)
    (name : string) (encrypted : bool) (mime disk : string) : Prop := {
  meta_code : Error_Code r = 0;
  meta_count : exists c, Result r !! "count" = Some (VNum c)
                         /\ float64_is_zero c = false;
  meta_list : exists fileInfo rest,
      Result r !! "list" = Some (VList (VMap fileInfo :: rest))
      /\ fileInfo !! "name" = Some (VStr name)
      /\ fileInfo !! "encrypted" = Some (VBool encrypted)
      /\ fileInfo !! "mime" = Some (VStr mime)
      /\ fileInfo !! "disk" = Some (VStr disk)
}.

(** A request that [DownloadFile] may send for a token and a file:
    the POST of the serialised [file_request] of one of its two
    methods. *)
Definition sent_for (jsonToReader : value -> option (list byte))
    (token fileId : string) (req : Request) : Prop :=
  exists method,
    (method = "files.getById" \/ method = "files.download")
    /\ jsonToReader (file_request method token fileId) = Some (ReqBody req)
    /\ req = post (ReqBody req).

(** A trace of calls of [Write] and nothing else. *)
Definition only_writes (tr : list event) : Prop :=
  Forall (fun ev => match ev with Ev_Writer_Write _ _ => True | _ => False end) tr.

(** The three refusals of [DownloadFile] for missing key material. *)
Definition credential_error (e : error) : Prop :=
  e = errors_New "file is encrypted and no any crypto cryptoInfo provided"
  \/ e = errors_New "file is encrypted and no password or keys provided"
  \/ e = errors_New "file is encrypted and no any data provided".

Definition not_found_error : error :=
  errors_New "file not found or you have not access to it".

(** The responses whose body the run received, from the gateway and
    from the content URL, and the responses whose body it closed. *)
Definition opened (tr : list event) : list Response :=
  omap (fun ev => match ev with
                  | Ev_client_Do _ (inr resp) => Some resp
                  | Ev_http_Get _ (inr resp) => Some resp
                  | _ => None
                  end) tr.

Definition closed (tr : list event) : list Response :=
  omap (fun ev => match ev with Ev_Body_Close resp => Some resp | _ => None end) tr.

(** The content responses that were fetched. *)
Definition fetched (tr : list event) : list Response :=
  omap (fun ev => match ev with
                  | Ev_http_Get _ (inr resp) => Some resp
                  | _ => None
                  end) tr.

(** The API responses that were decoded. *)
Definition decoded (tr : list event) : list ApiResponse :=
  omap (fun ev => match ev with
                  | Ev_json_Decode _ (inr r) => Some r
                  | _ => None
                  end) tr.

(** The key material [GetKeyRings] was called with. *)
Definition keyring_calls (tr : list event) : list (string * string * list byte) :=
  omap (fun ev => match ev with
                  | Ev_GetKeyRings pub priv pass _ => Some (pub, priv, pass)
                  | _ => None
                  end) tr.

(** The CryptoInfo objects [GetCryptoInfo] handed out without error. *)
Definition resolved (tr : list event) : list (option CryptoInfo) :=
  omap (fun ev => match ev with
                  | Ev_GetCryptoInfo _ _ _ (ci, None) => Some ci
                  | _ => None
                  end) tr.

(** The plaintexts [Decrypt] produced. *)
Definition plaintexts (tr : list event) : list (list byte) :=
  omap (fun ev => match ev with
                  | Ev_KeyRing_Decrypt _ _ (inr plain) => Some plain
                  | _ => None
                  end) tr.

(** The errors the destination reported. *)
Definition write_errors (tr : list event) : list error :=
  omap (fun ev => match ev with
                  | Ev_Writer_Write _ (_, Some e) => Some e
                  | _ => None
                  end) tr.

(** No [Write] happens while a key ring is unlocked and not yet
    cleared; [held] are the rings unlocked so far. *)
Fixpoint no_write_while_unlocked (held : nat) (tr : list event) : Prop :=
  match tr with
  | [] => True
  | Ev_GetKeyRings _ _ _ (_, Some _, None) :: tr' =>
      no_write_while_unlocked (Datatypes.S held) tr'
  | Ev_KeyRing_ClearPrivateParams _ _ :: tr' =>
      no_write_while_unlocked (Nat.pred held) tr'
  | Ev_Writer_Write _ _ :: tr' =>
      held = O /\ no_write_while_unlocked held tr'
  | _ :: tr' => no_write_while_unlocked held tr'
  end.

(** ** A scripted environment

    Concrete environments, to run the two functions on examples: the
    answers are fixed functions of the call, except that the n-th
    decoded API response is the n-th of a script. *)

Record world : Type := mkWorld {
  on_Do : Request -> error + Response;
  on_Decode : nat -> error + ApiResponse;
  on_Get : string -> error + Response;
  on_GetCryptoInfo : string -> string -> string -> option CryptoInfo * option error;
  on_GetKeyRings : string -> string -> list byte
                   -> option KeyRing * option KeyRing * option error;
  on_Decrypt : KeyRing -> list byte -> error + list byte;
  on_Write : list byte -> Z * option error
}.

Definition world_handle (w : world) (X : Type) (e : effect X) : nat -> X * nat :=
  match e in effect X return nat -> X * nat with
  | client_Do req => fun n => (on_Do w req, n)
  | json_Decode _ => fun n => (on_Decode w n, Datatypes.S n)
  | Body_Close _ => fun n => (tt, n)
  | http_Get url => fun n => (on_Get w url, n)
  | currentLogger _ _ => fun n => (tt, n)
  | GetCryptoInfo token diskId password =>
      fun n => (on_GetCryptoInfo w token diskId password, n)
  | GetKeyRings pub priv pass => fun n => (on_GetKeyRings w pub priv pass, n)
  | KeyRing_Decrypt ring message => fun n => (on_Decrypt w ring message, n)
  | KeyRing_ClearPrivateParams _ => fun n => (true, n)
  | Writer_Write p => fun n => (on_Write w p, n)
  end.

(** A serialiser for the examples: the strings of the value, joined. *)
Definition sample_json (v : value) : option (list byte) :=
  Some (String.list_byte_of_string (String.concat "," (strings_of v))).

(** Modelled from the spec: the method [IsCryptoReady] of [CryptoInfo],
    whose source is not at hand, "true iff RawCryptoKey populated". *)
Definition ready_when_key (ci : CryptoInfo) : bool :=
  negb (bool_decide (RawCryptoKey ci = "")).

Definition one : spec_float := S754_finite false 4503599627370496 (-52).

(** An API response with the given result and no error. *)
Definition answer (result : gmap string value) : ApiResponse :=
  {| JsonRPC := "2.0"; ID := 0; Error_Code := 0; Error_Message := "";
     Result := result |}.

(** The metadata of one file. *)
Definition metadata_of (name : string) (encrypted : bool) : ApiResponse :=
  answer {[ "count" := VNum one;
            "list" := VList [VMap {[ "id" := VStr "f1";
                                     "name" := VStr name;
                                     "encrypted" := VBool encrypted;
                                     "mime" := VStr "application/pdf";
                                     "disk" := VStr "d1";
                                     "size" := VNum one ]}] ]}.

Definition url_answer : ApiResponse :=
  answer {[ "url" := VStr "https://cdn.example/f1" ]}.

Definition ok_response (body : stream) : Response :=
  {| Status := "200 OK"; StatusCode := 200; Body := body |}.

Definition ring1 : KeyRing := KeyRingRef 1.

(** A well-behaved environment around one file: the lookup answers
    with [meta], the download request with the URL, the URL with
    [body]; the key ring opens and decrypts to [plain]; the writer
    takes everything. *)
Definition sample_world (meta : ApiResponse) (body : stream)
    (plain : error + list byte) : world :=
  {| on_Do := fun _ => inr (ok_response (mkStream [] None));
     on_Decode := fun n => match n with
                           | O => inr meta
                           | _ => inr url_answer
                           end;
     on_Get := fun _ => inr (ok_response body);
     on_GetCryptoInfo := fun _ _ password =>
       (Some (mkCryptoInfo "enc" "pub" password "raw"), None);
     on_GetKeyRings := fun _ _ _ => (Some (KeyRingRef 0), Some ring1, None);
     on_Decrypt := fun _ _ => plain;
     on_Write := fun p => (Z.of_nat (length p), None) |}.

(** Modelled from the spec: [GetCryptoInfo] and [GetKeyRings], whose
    source is not at hand, for a passphrase that does not unlock the
    private key; both fail with "failed to decrypt private key". *)
Definition unlock_error : error := errors_New "failed to decrypt private key".

Definition refusing (w : world) : world :=
  {| on_Do := on_Do w; on_Decode := on_Decode w; on_Get := on_Get w;
     on_GetCryptoInfo := fun _ _ _ => (None, Some unlock_error);
     on_GetKeyRings := fun _ _ _ => (None, None, Some unlock_error);
     on_Decrypt := on_Decrypt w; on_Write := on_Write w |}.

(** The same environment with a destination that takes one byte and
    then fails. *)
Definition disk_full : error := errors_New "no space left on device".

Definition failing_writer (w : world) : world :=
  {| on_Do := on_Do w; on_Decode := on_Decode w; on_Get := on_Get w;
     on_GetCryptoInfo := on_GetCryptoInfo w;
     on_GetKeyRings := on_GetKeyRings w;
     on_Decrypt := on_Decrypt w;
     on_Write := fun _ => (1, Some disk_full) |}.

Definition bytes (s : string) : list byte := String.list_byte_of_string s.

Definition decrypt_error : error := errors_New "gopenpgp: error in reading message".

(** A CryptoInfo that is ready, and one that holds a password only. *)
Definition ready_info : CryptoInfo := mkCryptoInfo "enc" "pub" "passphrase" "raw".
Definition password_only : CryptoInfo := mkCryptoInfo "" "" "passphrase" "".

(** The files of the examples: an encrypted one and a plain one. *)
Definition ciphertext : stream := mkStream [bytes "ciphertext"] None.

Definition secret_world : world :=
  sample_world (metadata_of "secret.bin" true) ciphertext (inr (bytes "plain")).

Definition garbled_world : world :=
  sample_world (metadata_of "secret.bin" true) ciphertext (inl decrypt_error).

Definition report : stream := mkStream [bytes "ab"; bytes "cd"] None.

Definition report_world : world :=
  sample_world (metadata_of "report.pdf" false) report (inr []).

(** Lookup responses off the contract: a list element that is not an
    object, a field of the wrong type, and no file at all. *)
Definition not_an_object : ApiResponse :=
  answer {[ "count" := VNum one; "list" := VList [VStr "f1"] ]}.

Definition wrong_field : ApiResponse :=
  answer {[ "count" := VNum one;
            "list" := VList [VMap {[ "name" := VStr "a.txt";
                                     "encrypted" := VStr "no";
                                     "mime" := VStr "text/plain";
                                     "disk" := VStr "d1" ]}] ]}.

Definition no_file : ApiResponse :=
  answer {[ "count" := VNum (S754_zero false); "list" := VList [] ]}.

Definition lookup_world (meta : ApiResponse) : world :=
  sample_world meta (mkStream [] None) (inr []).

Definition download (w : world) (cryptoInfo : option CryptoInfo)
  : outcome pkg.DownloadResult pkg.DownloadResult * nat * list event :=
  run (world_handle w)
      (pkg.DownloadFile sample_json ready_when_key "tok" "f1" cryptoInfo) O.

(** A serialiser that gives up on every value. *)
Definition no_json (v : value) : option (list byte) := None.

(** The same environment with a content server that answers 404. *)
Definition not_found_response : Response :=
  {| Status := "404 Not Found"; StatusCode := 404;
     Body := mkStream [bytes "gone"] None |}.

Definition missing_content (w : world) : world :=
  {| on_Do := on_Do w; on_Decode := on_Decode w;
     on_Get := fun _ => inr not_found_response;
     on_GetCryptoInfo := on_GetCryptoInfo w;
     on_GetKeyRings := on_GetKeyRings w;
     on_Decrypt := on_Decrypt w; on_Write := on_Write w |}.

(** An API response with an error code. *)
Definition denied : ApiResponse :=
  {| JsonRPC := "2.0"; ID := 0; Error_Code := 403;
     Error_Message := "access denied"; Result := ∅ |}.

(** An encrypted file whose ciphertext breaks off while it is read. *)
Definition read_error : error := errors_New "unexpected EOF".

Definition broken_world : world :=
  sample_world (metadata_of "secret.bin" true)
    (mkStream [bytes "cipher"] (Some read_error)) (inr (bytes "plain")).

(** A scripted environment for the actions. *)
Record cli_world : Type := mkCliWorld {
  cli_password : list byte * option error;
  cli_check : string -> internal.Config -> option error * internal.Config;
  cli_disk : string -> string * internal.Disk * option error;
  cli_ready : CryptoInfo -> option error * CryptoInfo;
  cli_write : string -> option error;
  cli_scan : string;
  cli_stat : string -> error + bool;
  cli_open : string -> option error;
  cli_upload : string -> option error;
  cli_pkg : world
}.

Definition cli_handle (w : cli_world) (X : Type) (e : internal.cli_effect X)
  : nat -> X * nat :=
  match e in internal.cli_effect X return nat -> X * nat with
  | internal.Print _ => fun n => (tt, n)
  | internal.PrintError _ => fun n => (tt, n)
  | internal.fmt_Print _ => fun n => (tt, n)
  | internal.flag_PrintDefaults => fun n => (tt, n)
  | internal.CheckTokenAndAssign token config => fun n => (cli_check w token config, n)
  | internal.terminal_ReadPassword _ => fun n => (cli_password w, n)
  | internal.DiskIdOrDefault _ id => fun n => (cli_disk w id, n)
  | internal.TryGetReady cryptoInfo _ _ => fun n => (cli_ready w cryptoInfo, n)
  | internal.os_WriteFile name _ _ => fun n => (cli_write w name, n)
  | internal.ScanOrDefault _ _ => fun n => (cli_scan w, n)
  | internal.os_Stat path => fun n => (cli_stat w path, n)
  | internal.os_Open path => fun n => (cli_open w path, n)
  | internal.NewDefaultCryptoInfo => fun n => (Some password_only, n)
  | internal.UploadFile _ name _ _ _ _ _ => fun n => (cli_upload w name, n)
  | internal.in_pkg e' => world_handle (cli_pkg w) _ e'
  end.

Definition invalid_token : error := errors_New "invalid token".

(** A terminal session: the entry typed, a server that rejects every
    token, a default disk d1 whose key unlocks, and a file system
    where every path is a plain file and writing works when [writable]
    says so. *)
Definition session (entry : list byte) (writable : bool) : cli_world :=
  {| cli_password := (entry, None);
     cli_check := fun _ config => (Some invalid_token, config);
     cli_disk := fun _ => ("d1", internal.mkDisk "d1" "enc" "pub", None);
     cli_ready := fun ci =>
       (None, mkCryptoInfo (EncryptedCryptoKey ci) (PublicKey ci) (Password ci) "raw");
     cli_write := fun _ => if writable then None else Some disk_full;
     cli_scan := "";
     cli_stat := fun _ => inr false;
     cli_open := fun _ => None;
     cli_upload := fun _ => None;
     cli_pkg := secret_world |}.



(** ** Properties *)

Section Properties.
Variable jsonToReader : value -> option (list byte).
Variable IsCryptoReady : CryptoInfo -> bool.
Context {St : Type}.
Variable handle : forall X, effect X -> St -> X * St.

#[local] Abbreviation ApiRequest := (pkg.ApiRequest jsonToReader).
#[local] Abbreviation DownloadFile := (pkg.DownloadFile jsonToReader IsCryptoReady).

Lemma run_bind {R A B} (m : prog R A) (k : A -> prog R B) (s : St) :
  run handle (bind m k) s =
  let '(o, s1, tr1) := run handle m s in
  match o with
  | Done a => let '(o2, s2, tr2) := run handle (k a) s1 in (o2, s2, tr1 ++ tr2)
  | Returned r => (Returned r, s1, tr1)
  | Panicked msg => (Panicked msg, s1, tr1)
  end.
Proof.
  revert s. induction m as [a|r|msg|X e k' IH]; intros s; simpl.
  - destruct (run handle (k a) s) as [[o2 s2] tr2]. reflexivity.
  - reflexivity.
  - reflexivity.
  - destruct (handle X e s) as [x s1]. rewrite IH.
    destruct (run handle (k' x) s1) as [[o s2] tr1].
    destruct o; [destruct (run handle (k a) s2) as [[o2 s3] tr2]|..]; reflexivity.
Qed.

Lemma run_call {R A} (m : prog A A) (s : St) :
  run handle (call (R:=R) m) s =
  let '(o, s1, tr1) := run handle m s in
  (match o with
   | Done a | Returned a => Done a
   | Panicked msg => Panicked msg
   end, s1, tr1).
Proof.
  revert s. induction m as [a|r|msg|X e k' IH]; intros s; simpl; try reflexivity.
  destruct (handle X e s) as [x s1]. rewrite IH.
  destruct (run handle (k' x) s1) as [[o s2] tr1]. reflexivity.
Qed.

Lemma run_defer {R A X} (e : effect X) (m : prog R A) (s : St) :
  run handle (defer e m) s =
  let '(o, s1, tr1) := run handle m s in
  let '(x, s2) := handle X e s1 in
  (o, s2, tr1 ++ [observe e x]).
Proof.
  revert s. induction m as [a|r|msg|Y e' k' IH]; intros s; simpl;
    try (destruct (handle X e s) as [x s2]; reflexivity).
  destruct (handle Y e' s) as [y s1]. rewrite IH.
  destruct (run handle (k' y) s1) as [[o s2] tr1].
  destruct (handle X e s2) as [x s3]. reflexivity.
Qed.

Lemma ApiRequest_run token method params s :
  exists res s1 tr,
    run handle (ApiRequest token method params) s
    = (Returned ((fun _ => transmitted_params token params) <$> params, res), s1, tr)
    /\ gateway jsonToReader (rpc_request method (transmitted_params token params)) tr res.
Proof.
  unfold pkg.ApiRequest, rpc_request.
  assert (Hp : match default ∅ params !! "token" with
               | Some _ => default ∅ params
               | None => <["token" := VStr token]> (default ∅ params)
               end = transmitted_params token params).
  { destruct params as [m|]; simpl.
    - case_bool_decide as Hm.
      + destruct Hm as [v ->]. reflexivity.
      + destruct (m !! "token") eqn:E; [exfalso; eauto|reflexivity].
    - rewrite lookup_empty. reflexivity. }
  rewrite Hp. clear Hp. set (sent := transmitted_params token params).
  destruct (jsonToReader _) as [jsonData|] eqn:Hj; simpl.
  - destruct (handle _ (client_Do _) s) as [[err|response] s1] eqn:Hdo; simpl.
    + eexists _, _, _. split; [reflexivity|]. by apply gateway_transport.
    + destruct (handle _ (json_Decode (Body response)) s1) as [d s2] eqn:Hd.
      destruct d as [err|responseData]; simpl;
        destruct (handle _ (Body_Close response) s2) as [[] s3];
        (eexists _, _, _; split; [reflexivity|]); by apply gateway_answer.
  - eexists _, _, _. split; [reflexivity|]. by apply gateway_unserialisable.
Qed.

(** C5.  An encrypted file and no CryptoInfo at all: the call returns
    the credential error straight after the metadata lookup; the run
    consists of the lookup alone, so the download URL is never
    requested and nothing is fetched. *)
Theorem nil_crypto_info_stops_after_lookup
    token fileId s caller filesList s1 tr1 name mime disk :
  fileId <> "" ->
  run handle (ApiRequest token "files.getById" (Some {[ "file" := VStr fileId ]})) s
    = (Returned (caller, inr filesList), s1, tr1) ->
  file_metadata filesList name true mime disk ->
  run handle (DownloadFile token fileId None) s
    = (Returned ("", 0, Some (errors_New
         "file is encrypted and no any crypto cryptoInfo provided")), s1, tr1)
  /\ length (requests tr1) = 1%nat
  /\ fetches tr1 = [].
Proof.
  intros Hid Hlookup [Hcode (c & Hc & Hz) (fi & rest & Hl & Hn & He & Hm & Hd)].
  split.
  - unfold pkg.DownloadFile.
    rewrite bool_decide_false by assumption.
    rewrite run_bind, run_call, Hlookup. simpl.
    rewrite Hcode, Hc, Hz, Hl. simpl.
    rewrite Hn, He, Hm, Hd. simpl.
    rewrite app_nil_r. reflexivity.
  - destruct (ApiRequest_run token "files.getById" (Some {[ "file" := VStr fileId ]}) s)
      as (res & s' & tr & Hrun & Hg).
    rewrite Hlookup in Hrun. inversion Hrun; subst.
    inversion Hg; subst; simpl; auto.
Qed.

(** C8.  A metadata response without API error that reports a zero
    count, or an empty list: the call returns the not-found error
    straight after the lookup; the run consists of the lookup alone,
    one request and no fetch. *)
Theorem zero_count_is_not_found
    token fileId cryptoInfo s caller filesList s1 tr1 :
  fileId <> "" ->
  run handle (ApiRequest token "files.getById" (Some {[ "file" := VStr fileId ]})) s
    = (Returned (caller, inr filesList), s1, tr1) ->
  Error_Code filesList = 0 ->
  (exists c, Result filesList !! "count" = Some (VNum c) /\ float64_is_zero c = true)
  \/ Result filesList !! "list" = Some (VList []) ->
  run handle (DownloadFile token fileId cryptoInfo) s
    = (Returned ("", 0, Some not_found_error), s1, tr1)
  /\ length (requests tr1) = 1%nat
  /\ fetches tr1 = [].
Proof.
  intros Hid Hlookup Hcode Hnone. split.
  - unfold pkg.DownloadFile.
    rewrite bool_decide_false by assumption.
    rewrite run_bind, run_call, Hlookup. simpl.
    rewrite Hcode. simpl.
    destruct Hnone as [(c & Hc & Hz)|Hl].
    + rewrite Hc, Hz. simpl. rewrite app_nil_r. reflexivity.
    + rewrite Hl.
      destruct (float64_is_zero _); simpl; rewrite app_nil_r; reflexivity.
  - destruct (ApiRequest_run token "files.getById" (Some {[ "file" := VStr fileId ]}) s)
      as (res & s' & tr & Hrun & Hg).
    rewrite Hlookup in Hrun. inversion Hrun; subst.
    inversion Hg; subst; simpl; auto.
Qed.

Lemma gateway_requests body tr res :
  gateway jsonToReader body tr res -> requests tr = post <$> option_list (jsonToReader body).
Proof. intros Hg. inversion Hg as [Hj|? ? Hj|? ? ? Hj]; rewrite Hj; reflexivity. Qed.

(** C10, as the code has it.  With a "token" key in the caller's map,
    the map goes out as it is (whatever the token argument) and the
    caller's map stays as it was; without the key, the token argument
    is added under "token", in the caller's map; a nil map goes out as
    the map that holds the token alone, and the caller's nil map stays
    nil. *)
Theorem token_param_precedence token method params s :
  let '(o, _, tr) := run handle (ApiRequest token method params) s in
  match params with
  | Some m =>
      match m !! "token" with
      | Some v =>
          requests tr = post <$> option_list (jsonToReader (rpc_request method m))
          /\ exists res, o = Returned (Some m, res)
      | None =>
          requests tr = post <$> option_list (jsonToReader
                          (rpc_request method (<["token" := VStr token]> m)))
          /\ exists res, o = Returned (Some (<["token" := VStr token]> m), res)
      end
  | None =>
      requests tr = post <$> option_list (jsonToReader
                      (rpc_request method {[ "token" := VStr token ]}))
      /\ exists res, o = Returned (None, res)
  end.
Proof.
  destruct (ApiRequest_run token method params s) as (res & s1 & tr & -> & Hg).
  apply gateway_requests in Hg.
  destruct params as [m|]; simpl in *.
  - destruct (m !! "token") as [v|] eqn:Hm.
    + rewrite bool_decide_true in Hg by eauto. eauto.
    + rewrite bool_decide_false in Hg by (intros [? ?]; congruence). eauto.
  - eauto.
Qed.

Lemma file_request_sent method token fileId :
  rpc_request method (transmitted_params token (Some {[ "file" := VStr fileId ]}))
  = file_request method token fileId.
Proof.
  unfold rpc_request, file_request, transmitted_params.
  rewrite bool_decide_false.
  - rewrite <- !insert_empty. rewrite insert_insert_ne by discriminate. reflexivity.
  - rewrite lookup_singleton_ne by discriminate. intros [? ?]. discriminate.
Qed.

Lemma requests_app tr1 tr2 : requests (tr1 ++ tr2) = requests tr1 ++ requests tr2.
Proof. apply omap_app. Qed.

Lemma writes_app tr1 tr2 : writes (tr1 ++ tr2) = writes tr1 ++ writes tr2.
Proof. apply omap_app. Qed.

Lemma written_bytes_app tr1 tr2 :
  written_bytes (tr1 ++ tr2) = written_bytes tr1 ++ written_bytes tr2.
Proof.
  unfold written_bytes. rewrite writes_app, List.map_app, concat_app. reflexivity.
Qed.

Lemma only_writes_requests tr : only_writes tr -> requests tr = [].
Proof.
  induction 1 as [|ev tr Hev _ IH]; [reflexivity|].
  destruct ev; try contradiction. exact IH.
Qed.

Lemma fetched_bodies_app tr1 tr2 :
  fetched_bodies (tr1 ++ tr2) = fetched_bodies tr1 ++ fetched_bodies tr2.
Proof. apply omap_app. Qed.

Lemma only_writes_fetched_bodies tr : only_writes tr -> fetched_bodies tr = [].
Proof.
  induction 1 as [|ev tr Hev _ IH]; [reflexivity|].
  destruct ev; try contradiction. exact IH.
Qed.

Lemma wrap64_small z : - 2 ^ 63 <= z < 2 ^ 63 -> wrap64 z = z.
Proof.
  intros Hz. unfold wrap64.
  rewrite Z.mod_small by lia. lia.
Qed.

(** The copy loop: it ends with a count and an error, and calls
    nothing but [Write].  When it ends without error the source ended
    without error, the destination took every byte of it, and the
    count went up by their number (as long as that fits an int64). *)
Lemma copyBuffer_run {R} reads er written s :
  exists n err s1 tr,
    run handle (pkg.copyBuffer (R:=R) reads er written) s = (Done (n, err), s1, tr)
    /\ only_writes tr
    /\ (err = None ->
        er = None
        /\ written_bytes tr = concat reads
        /\ (0 <= written ->
            written + Z.of_nat (length (concat reads)) < 2 ^ 63 ->
            n = written + Z.of_nat (length (concat reads)))).
Proof.
  revert written s.
  induction reads as [|buf rest IH]; intros written s; simpl.
  - eexists _, _, _, _. split; [reflexivity|]. split; [constructor|].
    intros ->. repeat split. simpl. lia.
  - destruct (0 <? Z.of_nat (length buf)) eqn:Hnr.
    + simpl. destruct (handle _ (Writer_Write buf) s) as [[nw ew] s1].
      destruct ((nw <? 0) || (Z.of_nat (length buf) <? nw)) eqn:Hinv.
      * simpl. eexists _, _, _, _. split; [reflexivity|].
        split; [repeat constructor|]. discriminate.
      * apply orb_false_elim in Hinv as [Hneg Hbig].
        apply Z.ltb_ge in Hneg, Hbig.
        destruct ew as [e|]; simpl.
        { eexists _, _, _, _. split; [reflexivity|].
          split; [repeat constructor|]. discriminate. }
        destruct (Z.of_nat (length buf) =? nw) eqn:Hfull; simpl.
        { apply Z.eqb_eq in Hfull. subst nw.
          destruct (IH (wrap64 (written + Z.of_nat (length buf))) s1)
            as (n & err & s2 & tr & -> & Honly & Hok).
          eexists _, _, _, _. split; [reflexivity|].
          split; [constructor; [exact I|exact Honly]|].
          intros Herr. destruct (Hok Herr) as (Her & Hbytes & Hn).
          split; [exact Her|]. split.
          - change (written_bytes (Ev_Writer_Write buf (Z.of_nat (length buf), None) :: tr))
              with (take (Z.to_nat (Z.of_nat (length buf))) buf ++ written_bytes tr).
            rewrite Nat2Z.id, firstn_all, Hbytes. reflexivity.
          - intros Hpos Hfit. rewrite length_app in Hfit.
            rewrite wrap64_small in Hn by lia.
            rewrite length_app. rewrite Hn by lia. lia. }
        { eexists _, _, _, _. split; [reflexivity|].
          split; [repeat constructor|]. discriminate. }
    + destruct (IH written s) as (n & err & s2 & tr & -> & Honly & Hok).
      eexists _, _, _, _. split; [reflexivity|]. split; [exact Honly|].
      intros Herr. destruct (Hok Herr) as (Her & Hbytes & Hn).
      apply Z.ltb_ge in Hnr.
      assert (Hnil : buf = []) by (destruct buf; [reflexivity|simpl in Hnr; lia]).
      subst buf. simpl. auto.
Qed.

(** Symbolic execution of a run of [DownloadFile]: split binds, calls
    and defers, replace a call of [ApiRequest] and a copy loop by what
    is known of them, and case on whatever the next step depends on. *)
Ltac exec_api :=
  match goal with
  | |- context [run handle (bind (call (pkg.ApiRequest jsonToReader ?t ?m ?p)) ?k) ?s] =>
      let Hg := fresh "Hg" in
      rewrite run_bind, run_call;
      destruct (ApiRequest_run t m p s) as (? & ? & ? & -> & Hg);
      rewrite file_request_sent in Hg;
      inversion Hg; subst; clear Hg
  end.

Ltac exec_copy :=
  match goal with
  | |- context [run handle (defer ?e (bind (pkg.copyBuffer ?reads ?er ?written) ?k)) ?s] =>
      let Honly := fresh "Honly" in
      let Hok := fresh "Hok" in
      rewrite run_defer, run_bind;
      destruct (copyBuffer_run (R:=pkg.DownloadResult) reads er written s)
        as (? & ? & ? & ? & -> & Honly & Hok)
  end.

Ltac stuck_on t :=
  lazymatch t with
  | bind ?m _ => stuck_on m
  | defer _ ?m => stuck_on m
  | call ?m => stuck_on m
  | match ?x with _ => _ end => stuck_on x
  | andb ?a _ => stuck_on a
  | negb ?a => stuck_on a
  | float64_is_zero ?a => stuck_on a
  | handle ?X ?e ?s =>
      let x := fresh "x" in
      let s' := fresh "s" in
      destruct (handle X e s) as [x s']
  | _ => destruct t eqn:?
  end.

Ltac exec_case :=
  match goal with
  | |- context [run handle ?m ?s] => stuck_on m
  | |- context [handle ?X ?e ?s] => stuck_on (handle X e s)
  end.

Ltac exec_step := first [ progress simpl | exec_api | exec_copy | exec_case ].

Ltac exec :=
  unfold pkg.DownloadFile, pkg.io_Copy, pkg.bytes_Reader_WriteTo,
    assert_map, assert_string, assert_bool, deref;
  repeat exec_step.

(** C2.  Every request a run of [DownloadFile] sends is the POST of
    the serialised value [{method, params: {file, token}}] for one of
    its two methods; the strings of that value are the two keys, the
    method name, the key and the value of the file identifier, and the
    key and the value of the token.  The CryptoInfo has no part in
    it. *)
Theorem requests_carry_no_secret token fileId cryptoInfo s :
  Forall (sent_for jsonToReader token fileId)
         (requests (run handle (DownloadFile token fileId cryptoInfo) s).2)
  /\ forall method,
       strings_of (file_request method token fileId)
       = ["method"; method; "params"; "file"; fileId; "token"; token].
Proof.
  split; [|intros method; vm_compute; reflexivity].
  exec.
  all: rewrite ?requests_app; try rewrite (only_writes_requests _ Honly); simpl.
  all: repeat constructor.
  all: try (eexists; split; [|split]; [|eassumption|reflexivity]; auto).
Qed.

(** The start of a run whose lookup found the file: the trace of the
    lookup is spelled out and the run is taken past the reading of the
    metadata. *)
Ltac found_file Hid Hlookup Hmeta :=
  let Hcode := fresh "Hcode" in
  let Hc := fresh "Hc" in let Hz := fresh "Hz" in let Hl := fresh "Hl" in
  let Hn := fresh "Hn" in let He := fresh "He" in
  let Hm := fresh "Hm" in let Hd := fresh "Hd" in
  let Hrun := fresh "Hrun" in let Hg := fresh "Hg" in
  destruct Hmeta as [Hcode (? & Hc & Hz) (? & ? & Hl & Hn & He & Hm & Hd)];
  match type of Hlookup with
  | run handle (pkg.ApiRequest jsonToReader ?t ?m ?p) ?s = _ =>
      destruct (ApiRequest_run t m p s) as (? & ? & ? & Hrun & Hg);
      rewrite Hlookup in Hrun; injection Hrun as ? ? ? ?; subst;
      rewrite file_request_sent in Hg;
      inversion Hg; subst; clear Hg
  end;
  unfold pkg.DownloadFile;
  rewrite bool_decide_false by assumption;
  rewrite run_bind, run_call, Hlookup; simpl;
  rewrite Hcode, Hc, Hz, Hl; simpl;
  rewrite Hn, He, Hm, Hd; simpl.

(** C1.  The file is marked encrypted.  In the run no [Write] comes
    before a [Decrypt] that succeeded on the whole fetched body, and
    what is written after it is its plaintext; and when a [Decrypt]
    failed, no [Write] was called at all and the call returns that
    error. *)
Theorem no_write_without_decryption
    token fileId cryptoInfo s caller filesList s1 tr1 name mime disk o s' tr :
  fileId <> "" ->
  run handle (ApiRequest token "files.getById" (Some {[ "file" := VStr fileId ]})) s
    = (Returned (caller, inr filesList), s1, tr1) ->
  file_metadata filesList name true mime disk ->
  run handle (DownloadFile token fileId cryptoInfo) s = (o, s', tr) ->
  delivery_guarded None tr
  /\ forall e, In e (decrypt_errors tr) ->
       writes tr = [] /\ o = Returned ("", 0, Some e).
Proof.
  intros Hid Hlookup Hmeta Hrun. revert Hrun.
  found_file Hid Hlookup Hmeta.
  exec.
  all: intros Hrun; injection Hrun as ? ? ?; subst.
  all: split; [simpl; repeat constructor|].
  all: intros e' Hin; simpl in Hin;
    first [ contradiction | destruct Hin as [<-|[]]; split; reflexivity ].
Qed.

(** C6, as the code has it.  The file is marked encrypted and every
    attempt of the run to unlock the private key is refused (the
    passphrase is wrong).  Then nothing is written, [Decrypt] is never
    called, and the call returns an error.  When it was [GetKeyRings]
    that refused, the call returns its error and the content had been
    fetched; when it was [GetCryptoInfo], the call returns its error,
    wrapped, and neither the download URL was requested nor anything
    fetched. *)
Theorem wrong_passphrase_delivers_nothing
    token fileId cryptoInfo s caller filesList s1 tr1 name mime disk o s' tr :
  fileId <> "" ->
  run handle (ApiRequest token "files.getById" (Some {[ "file" := VStr fileId ]})) s
    = (Returned (caller, inr filesList), s1, tr1) ->
  file_metadata filesList name true mime disk ->
  run handle (DownloadFile token fileId cryptoInfo) s = (o, s', tr) ->
  ~ In None (resolve_results tr ++ keyring_results tr) ->
  writes tr = [] /\ decrypts tr = []
  /\ (exists err, o = Returned ("", 0, Some err))
  /\ (forall e, In (Some e) (keyring_results tr) ->
        o = Returned ("", 0, Some e) /\ length (fetches tr) = 1%nat)
  /\ (forall e, In (Some e) (resolve_results tr) ->
        o = Returned ("", 0, Some (fmt_Errorf_w "failed to get crypto info: %w" e))
        /\ fetches tr = [] /\ length (requests tr) = 1%nat).
Proof.
  intros Hid Hlookup Hmeta Hrun. revert Hrun.
  found_file Hid Hlookup Hmeta.
  exec.
  all: intros Hrun; injection Hrun as ? ? ?; subst.
  all: intros Hrefused; simpl in Hrefused.
  all: try (exfalso; apply Hrefused; auto; fail).
  all: split; [reflexivity|]; split; [reflexivity|]; split; [eauto|].
  all: split; intros e' Hin; simpl in Hin; try contradiction.
  all: destruct Hin as [[= <-]|[]]; repeat split; reflexivity.
Qed.

(** C9, as the code has it.  The file is marked unencrypted and the
    call returns without error.  Then the name returned is the name of
    the metadata, one content response was fetched, the bytes the
    destination took are the bytes of its body, one for one, and the
    count returned is their number (for a body of fewer than 2^63
    bytes, the range of the int64 count). *)
Theorem plain_file_passes_through
    token fileId cryptoInfo s caller filesList s1 tr1 name mime disk
    fileName numBytes s' tr :
  fileId <> "" ->
  run handle (ApiRequest token "files.getById" (Some {[ "file" := VStr fileId ]})) s
    = (Returned (caller, inr filesList), s1, tr1) ->
  file_metadata filesList name false mime disk ->
  run handle (DownloadFile token fileId cryptoInfo) s
    = (Returned (fileName, numBytes, None), s', tr) ->
  fileName = name
  /\ exists body,
      fetched_bodies tr = [body]
      /\ written_bytes tr = content body
      /\ (Z.of_nat (length (content body)) < 2 ^ 63 ->
          numBytes = Z.of_nat (length (written_bytes tr))).
Proof.
  intros Hid Hlookup Hmeta Hrun. revert Hrun.
  found_file Hid Hlookup Hmeta.
  exec.
  all: intros Hrun; try discriminate Hrun.
  injection Hrun as ? ? ? ?; subst.
  destruct (Hok eq_refl) as (_ & Hbytes & Hcount).
  assert (Hwritten : forall pre post,
             writes pre = [] -> writes post = [] ->
             written_bytes (pre ++ x11 ++ post) = content (Body r)).
  { intros pre post Hpre Hpost.
    rewrite !written_bytes_app. unfold written_bytes at 1 3.
    rewrite Hpre, Hpost. simpl. rewrite app_nil_r. exact Hbytes. }
  split; [reflexivity|]. exists (Body r).
  split; [|split].
  - simpl. rewrite !fetched_bodies_app.
    rewrite (only_writes_fetched_bodies _ Honly). reflexivity.
  - rewrite <- app_assoc.
    apply (Hwritten [_; _; _; _; _; _; _; _; _] [_; _]); reflexivity.
  - intros Hfit. rewrite <- app_assoc.
    replace (written_bytes _) with (content (Body r)).
    + apply Hcount; [lia|exact Hfit].
    + symmetry. apply (Hwritten [_; _; _; _; _; _; _; _; _] [_; _]); reflexivity.
Qed.

(** Behind C3: in every environment, a run for an encrypted file in
    which [Decrypt] failed had a key ring unlocked and cleared none. *)
Lemma failed_decrypt_never_clears
    token fileId cryptoInfo s caller filesList s1 tr1 name mime disk o s' tr :
  fileId <> "" ->
  run handle (ApiRequest token "files.getById" (Some {[ "file" := VStr fileId ]})) s
    = (Returned (caller, inr filesList), s1, tr1) ->
  file_metadata filesList name true mime disk ->
  run handle (DownloadFile token fileId cryptoInfo) s = (o, s', tr) ->
  decrypt_errors tr <> [] ->
  length (unlocked tr) = 1%nat /\ clears tr = [].
Proof.
  intros Hid Hlookup Hmeta Hrun. revert Hrun.
  found_file Hid Hlookup Hmeta.
  exec.
  all: intros Hrun; injection Hrun as ? ? ?; subst.
  all: simpl; intros Hfailed; try contradiction.
  all: split; reflexivity.
Qed.

(** Behind C7: in every environment, a lookup response whose first list
    element is not an object makes the call panic. *)
Lemma element_not_an_object_panics
    token fileId cryptoInfo s caller filesList s1 tr1 c list_0 rest :
  fileId <> "" ->
  run handle (ApiRequest token "files.getById" (Some {[ "file" := VStr fileId ]})) s
    = (Returned (caller, inr filesList), s1, tr1) ->
  Error_Code filesList = 0 ->
  Result filesList !! "count" = Some (VNum c) ->
  float64_is_zero c = false ->
  Result filesList !! "list" = Some (VList (list_0 :: rest)) ->
  (forall m, list_0 <> VMap m) ->
  run handle (DownloadFile token fileId cryptoInfo) s
  = (Panicked "interface conversion: interface {} is not map[string]interface {}",
     s1, tr1).
Proof.
  intros Hid Hlookup Hcode Hc Hz Hl Hobj.
  unfold pkg.DownloadFile.
  rewrite bool_decide_false by assumption.
  rewrite run_bind, run_call, Hlookup. simpl.
  rewrite Hcode, Hc, Hz, Hl. simpl.
  destruct list_0; simpl; rewrite ?app_nil_r; try reflexivity.
  exfalso. eapply Hobj. reflexivity.
Qed.

(** C4.  The file is marked encrypted and the CryptoInfo is not ready.
    A nil CryptoInfo: the first credential error, straight after the
    lookup.  Password and RawCryptoKey both empty: the second
    credential error, straight after the lookup.  RawCryptoKey empty
    (so Password is not): the next call is GetCryptoInfo for the disk
    of the file with that password, and when it fails the call returns
    its error, wrapped, and nothing else happens.  Anything else: the
    third credential error, straight after the lookup. *)
Theorem auth_check_precedence
    token fileId cryptoInfo s caller filesList s1 tr1 name mime disk :
  fileId <> "" ->
  run handle (ApiRequest token "files.getById" (Some {[ "file" := VStr fileId ]})) s
    = (Returned (caller, inr filesList), s1, tr1) ->
  file_metadata filesList name true mime disk ->
  match cryptoInfo with
  | None => True
  | Some ci => IsCryptoReady ci = false
  end ->
  let download := run handle (DownloadFile token fileId cryptoInfo) s in
  match cryptoInfo with
  | None =>
      download = (Returned ("", 0, Some (errors_New
        "file is encrypted and no any crypto cryptoInfo provided")), s1, tr1)
  | Some ci =>
      if bool_decide (Password ci = "" /\ RawCryptoKey ci = "") then
        download = (Returned ("", 0, Some (errors_New
          "file is encrypted and no password or keys provided")), s1, tr1)
      else if bool_decide (RawCryptoKey ci = "") then
        let '(res, s2) := handle _ (GetCryptoInfo token disk (Password ci)) s1 in
        let resolve := Ev_GetCryptoInfo token disk (Password ci) res in
        match res.2 with
        | Some e =>
            download = (Returned ("", 0, Some
              (fmt_Errorf_w "failed to get crypto info: %w" e)), s2, tr1 ++ [resolve])
        | None =>
            exists o s3 rest, download = (o, s3, tr1 ++ resolve :: rest)
        end
      else
        download = (Returned ("", 0, Some (errors_New
          "file is encrypted and no any data provided")), s1, tr1)
  end.
Proof.
  intros Hid Hlookup [Hcode (c & Hc & Hz) (fi & rest & Hl & Hn & He & Hm & Hd)] Hready.
  unfold pkg.DownloadFile.
  rewrite bool_decide_false by assumption.
  rewrite run_bind, run_call, Hlookup. simpl.
  rewrite Hcode, Hc, Hz, Hl. simpl.
  rewrite Hn, He, Hm, Hd. simpl.
  destruct cryptoInfo as [ci|]; simpl.
  - rewrite Hready. simpl.
    destruct (bool_decide (Password ci = "")) eqn:Hp;
      destruct (bool_decide (RawCryptoKey ci = "")) eqn:Hk; simpl.
    + apply bool_decide_eq_true in Hp, Hk.
      rewrite bool_decide_true by auto. rewrite app_nil_r. reflexivity.
    + apply bool_decide_eq_false in Hk.
      rewrite bool_decide_false by tauto. rewrite app_nil_r. reflexivity.
    + apply bool_decide_eq_false in Hp.
      rewrite bool_decide_false by tauto.
      destruct (handle _ (GetCryptoInfo token disk (Password ci)) s1)
        as [[cryptoInfo' [err|]] s2]; simpl.
      * reflexivity.
      * destruct (handle _ (currentLogger _ _) s2) as [[] s3].
        destruct (run handle _ s3) as [[o s4] tr2].
        eexists _, _, _. reflexivity.
    + apply bool_decide_eq_false in Hk.
      rewrite bool_decide_false by tauto. rewrite app_nil_r. reflexivity.
  - rewrite app_nil_r. reflexivity.
Qed.

(** ** Further properties of the package *)

(** X1.  [CheckApiAlive] makes one GET of the ping URL and no JSON-RPC
    request, closes the body it received, and answers true exactly
    when the GET gave a response whose body was read to its end
    without error and whose status is 200 or whose body is "Pong!":
    either of the two is enough. *)
Theorem ping_alive_iff s :
  let '(o, _, tr) := run handle pkg.CheckApiAlive s in
  exists alive,
    o = Returned alive
    /\ fetches tr = [pkg.ktUrl +:+ "/ping"]
    /\ requests tr = []
    /\ opened tr = closed tr
    /\ (alive = true <->
        exists resp,
          fetched tr = [resp]
          /\ final (Body resp) = None
          /\ (StatusCode resp = 200
              \/ String.string_of_list_byte (content (Body resp)) = "Pong!")).
Proof.
  unfold pkg.CheckApiAlive, pkg.io_ReadAll. simpl.
  destruct (handle _ (http_Get _) s) as [[err|resp] s1]; simpl.
  - exists false. repeat split; try discriminate.
    intros (resp & Hresp & _). discriminate Hresp.
  - destruct (final (Body resp)) as [err|] eqn:Hfinal; simpl;
      destruct (handle _ (Body_Close resp) s1) as [[] s2]; simpl.
    + exists false. repeat split; try discriminate.
      intros (resp' & [= <-] & Hend & _). congruence.
    + eexists. split; [reflexivity|]. repeat split.
      * intros Halive. exists resp. repeat split; [assumption|].
        apply orb_true_iff in Halive as [Hstatus|Hbody].
        -- left. apply Z.eqb_eq. exact Hstatus.
        -- right. apply bool_decide_eq_true in Hbody. exact Hbody.
      * intros (resp' & [= <-] & _ & [Hstatus|Hbody]); apply orb_true_iff.
        -- left. apply Z.eqb_eq. exact Hstatus.
        -- right. apply bool_decide_eq_true. exact Hbody.
Qed.

(** X2.  [ApiRequest] sends at most one request, closes the body of
    the response it received, and hands on what the decoder made of
    it as it is: a decoded response is the result whatever its error
    code, and a decoding error is the error. *)
Theorem api_request_passes_response_through token method params s :
  let '(o, _, tr) := run handle (ApiRequest token method params) s in
  (length (requests tr) <= 1)%nat
  /\ opened tr = closed tr
  /\ forall body d, In (Ev_json_Decode body d) tr ->
       exists caller, o = Returned (caller, d).
Proof.
  destruct (ApiRequest_run token method params s) as (res & s1 & tr & -> & Hg).
  inversion Hg; subst; simpl; (split; [lia|]); (split; [reflexivity|]).
  - intros body d [].
  - intros body d [Hin|[]]. discriminate Hin.
  - intros body d [Hin|[Hin|[Hin|[]]]]; try discriminate Hin.
    injection Hin as _ <-. eauto.
Qed.

(** X3.  When the request cannot be serialised, [ApiRequest] sends
    nothing and returns the error, but it has already written the
    token into the caller's map. *)
Theorem unserialisable_request_still_marks_map token method m s :
  m !! "token" = None ->
  jsonToReader (rpc_request method (<["token" := VStr token]> m)) = None ->
  run handle (ApiRequest token method (Some m)) s
  = (Returned (Some (<["token" := VStr token]> m),
               inl (errors_New "failed to convert json to reader")), s, []).
Proof.
  intros Hm Hj. unfold pkg.ApiRequest. simpl. rewrite Hm.
  unfold rpc_request in Hj. rewrite Hj. reflexivity.
Qed.

Lemma transmitted_has_token token params :
  is_Some (transmitted_params token params !! "token").
Proof.
  destruct params as [m|]; simpl.
  - case_bool_decide as Hm; [exact Hm|]. rewrite lookup_insert_eq. eauto.
  - rewrite lookup_singleton_eq. eauto.
Qed.

(** X4.  A params map that went through [ApiRequest] once keeps its
    token: a second call with the same map sends the params of the
    first call, whatever token the second call is given, and leaves
    the map as the first call left it. *)
Theorem reused_map_keeps_first_token
    token1 method1 token2 method2 m s caller1 res1 s1 tr1 :
  run handle (ApiRequest token1 method1 (Some m)) s
    = (Returned (caller1, res1), s1, tr1) ->
  let '(o, _, tr) := run handle (ApiRequest token2 method2 caller1) s1 in
  requests tr = post <$> option_list (jsonToReader
                  (rpc_request method2 (transmitted_params token1 (Some m))))
  /\ exists res, o = Returned (caller1, res).
Proof.
  intros Hfirst.
  destruct (ApiRequest_run token1 method1 (Some m) s) as (r1 & s1' & t1 & Hrun1 & _).
  rewrite Hfirst in Hrun1. injection Hrun1 as Hcaller _ _ _.
  change (caller1 = Some (transmitted_params token1 (Some m))) in Hcaller.
  destruct (ApiRequest_run token2 method2 caller1 s1) as (r2 & s2 & t2 & -> & Hg).
  apply gateway_requests in Hg.
  assert (Hsame : transmitted_params token2 caller1
                  = transmitted_params token1 (Some m)).
  { rewrite Hcaller. unfold transmitted_params at 1.
    rewrite bool_decide_true by apply transmitted_has_token. reflexivity. }
  rewrite Hsame in Hg. split; [exact Hg|].
  rewrite Hsame. rewrite Hcaller. simpl. eauto.
Qed.

(** What the copy loop contributes to a projection that does not look
    at writes. *)
Lemma only_writes_omap {B} (f : event -> option B) tr :
  (forall p r, f (Ev_Writer_Write p r) = None) ->
  only_writes tr -> omap f tr = [].
Proof.
  intros Hf. induction 1 as [|ev tr Hev _ IH]; [reflexivity|].
  destruct ev; try contradiction. simpl. rewrite Hf. exact IH.
Qed.

Ltac project_one P :=
  rewrite ?(fun l1 l2 => omap_app _ l1 l2 : P (l1 ++ l2) = P l1 ++ P l2);
  try match goal with
      | Honly : only_writes ?x |- _ =>
          rewrite ?(only_writes_omap _ x (fun _ _ => eq_refl) Honly : P x = [])
      end.

Ltac project :=
  simpl;
  project_one opened; project_one closed; project_one fetched;
  project_one fetches; project_one requests; project_one decoded;
  project_one keyring_calls; project_one resolved; project_one plaintexts;
  project_one resolve_results; project_one keyring_results;
  project_one decrypts; project_one clears; project_one unlocked;
  simpl.

(** X5.  [DownloadFile] closes every response body it received, from
    the gateway and from the content URL, in the order it received
    them and once each, on every path out of the function, a panic
    included. *)
Theorem download_closes_bodies token fileId cryptoInfo s :
  let '(_, _, tr) := run handle (DownloadFile token fileId cryptoInfo) s in
  opened tr = closed tr.
Proof.
  exec.
  all: project; reflexivity.
Qed.

(** X6.  Every error return of [DownloadFile] carries the empty name
    and the count zero, also when bytes have been written; and the
    function never falls off its end. *)
Theorem error_results_are_zeroed token fileId cryptoInfo s :
  match (run handle (DownloadFile token fileId cryptoInfo) s).1.1 with
  | Returned (fileName, numBytes, Some _) => fileName = "" /\ numBytes = 0
  | Returned (_, _, None) => True
  | Panicked _ => True
  | Done _ => False
  end.
Proof.
  exec.
  all: first [ exact I | split; reflexivity ].
Qed.

(** X7.  A content response whose status is not 200 ends the call with
    the error that names the status: nothing is written, no key ring
    is asked for and nothing is decrypted. *)
Theorem bad_status_stops_delivery token fileId cryptoInfo s o s' tr resp :
  run handle (DownloadFile token fileId cryptoInfo) s = (o, s', tr) ->
  In resp (fetched tr) ->
  StatusCode resp <> 200 ->
  o = Returned ("", 0, Some (fmt_Errorf_s "bad response status code: %s" (Status resp)))
  /\ writes tr = [] /\ keyring_calls tr = [] /\ decrypts tr = [].
Proof.
  intros Hrun. revert Hrun.
  exec.
  all: intros Hrun; injection Hrun as ? ? ?; subst.
  all: project.
  all: intros Hin Hstatus; simpl in Hin; try contradiction.
  all: destruct Hin as [<-|[]].
  all: try (exfalso; apply Hstatus; apply Z.eqb_eq; assumption).
  all: repeat split; reflexivity.
Qed.

(** X8.  A response of the API with a non-zero error code, to the
    lookup or to the download request, ends the call with the
    message of the server as the error; nothing is fetched or
    written. *)
Theorem api_error_ends_download token fileId cryptoInfo s o s' tr r :
  run handle (DownloadFile token fileId cryptoInfo) s = (o, s', tr) ->
  In r (decoded tr) ->
  Error_Code r <> 0 ->
  o = Returned ("", 0, Some (errors_New (Error_Message r)))
  /\ fetches tr = [] /\ writes tr = [].
Proof.
  intros Hrun. revert Hrun.
  exec.
  all: intros Hrun; injection Hrun as ? ? ?; subst.
  all: project.
  all: intros Hin Hcode; simpl in Hin.
  all: repeat (destruct Hin as [<-|Hin]); try contradiction.
  all: try (exfalso; apply Hcode; apply Z.eqb_eq; assumption).
  all: repeat split; reflexivity.
Qed.

(** X9.  The only URL [DownloadFile] fetches is the string the
    download response gave under "url", of a response without error
    code; it is fetched once, after the two requests. *)
Theorem fetched_url_is_the_servers token fileId cryptoInfo s o s' tr url :
  run handle (DownloadFile token fileId cryptoInfo) s = (o, s', tr) ->
  In url (fetches tr) ->
  fetches tr = [url]
  /\ length (requests tr) = 2%nat
  /\ exists meta r,
      decoded tr = [meta; r]
      /\ Error_Code r = 0
      /\ Result r !! "url" = Some (VStr url).
Proof.
  intros Hrun. revert Hrun.
  exec.
  all: intros Hrun; injection Hrun as ? ? ?; subst.
  all: project.
  all: intros Hin; simpl in Hin; try contradiction.
  all: destruct Hin as [<-|[]].
  all: split; [reflexivity|]; split; [reflexivity|].
  all: eexists _, _; split; [reflexivity|]; split; [|assumption].
  all: apply Z.eqb_eq; assumption.
Qed.

(** X10.  For a file marked unencrypted no key is touched, whatever
    CryptoInfo the caller gave: the resolver and the key-ring builder
    are not called, nothing is decrypted or cleared. *)
Theorem plain_file_needs_no_keys
    token fileId cryptoInfo s caller filesList s1 tr1 name mime disk o s' tr :
  fileId <> "" ->
  run handle (ApiRequest token "files.getById" (Some {[ "file" := VStr fileId ]})) s
    = (Returned (caller, inr filesList), s1, tr1) ->
  file_metadata filesList name false mime disk ->
  run handle (DownloadFile token fileId cryptoInfo) s = (o, s', tr) ->
  resolve_results tr = [] /\ keyring_calls tr = []
  /\ decrypts tr = [] /\ clears tr = [].
Proof.
  intros Hid Hlookup Hmeta Hrun. revert Hrun.
  found_file Hid Hlookup Hmeta.
  exec.
  all: intros Hrun; injection Hrun as ? ? ?; subst.
  all: project.
  all: repeat split; reflexivity.
Qed.

(** X11.  For a file marked encrypted and a CryptoInfo that is ready,
    the resolver is never called, and the key-ring builder, when the
    run reaches it, is given the public key, the raw key and the
    password of the caller's CryptoInfo. *)
Theorem ready_info_is_used_as_given
    token fileId ci s caller filesList s1 tr1 name mime disk o s' tr :
  fileId <> "" ->
  run handle (ApiRequest token "files.getById" (Some {[ "file" := VStr fileId ]})) s
    = (Returned (caller, inr filesList), s1, tr1) ->
  file_metadata filesList name true mime disk ->
  IsCryptoReady ci = true ->
  run handle (DownloadFile token fileId (Some ci)) s = (o, s', tr) ->
  resolve_results tr = []
  /\ (keyring_calls tr = []
      \/ keyring_calls tr
         = [(PublicKey ci, RawCryptoKey ci, bytes (Password ci))]).
Proof.
  intros Hid Hlookup Hmeta Hready Hrun. revert Hrun.
  found_file Hid Hlookup Hmeta.
  rewrite Hready. simpl.
  exec.
  all: intros Hrun; injection Hrun as ? ? ?; subst.
  all: split; [reflexivity|]; simpl; auto.
Qed.

(** X12.  Once the resolver has handed out a CryptoInfo, the key-ring
    builder is given the public key, the raw key and the password of
    that one; the fields of the caller's CryptoInfo are not used. *)
Theorem resolved_info_replaces_callers
    token fileId cryptoInfo s caller filesList s1 tr1 name mime disk o s' tr ci :
  fileId <> "" ->
  run handle (ApiRequest token "files.getById" (Some {[ "file" := VStr fileId ]})) s
    = (Returned (caller, inr filesList), s1, tr1) ->
  file_metadata filesList name true mime disk ->
  run handle (DownloadFile token fileId cryptoInfo) s = (o, s', tr) ->
  In (Some ci) (resolved tr) ->
  keyring_calls tr = []
  \/ keyring_calls tr = [(PublicKey ci, RawCryptoKey ci, bytes (Password ci))].
Proof.
  intros Hid Hlookup Hmeta Hrun. revert Hrun.
  found_file Hid Hlookup Hmeta.
  exec.
  all: intros Hrun; injection Hrun as ? ? ?; subst.
  all: simpl; intros Hin; try contradiction.
  all: destruct Hin as [Heq|[]]; first [ injection Heq as <- | subst ]; auto.
Qed.

(** X13.  For a file marked encrypted, when the call returns without
    error and the destination took all it was handed, the name
    returned is the name of the metadata, the bytes written are the
    plaintext [Decrypt] produced, and the count returned is the
    length of the plaintext, not of the ciphertext (for a plaintext
    of fewer than 2^63 bytes). *)
Theorem encrypted_file_delivers_plaintext
    token fileId cryptoInfo s caller filesList s1 tr1 name mime disk
    fileName numBytes s' tr :
  fileId <> "" ->
  run handle (ApiRequest token "files.getById" (Some {[ "file" := VStr fileId ]})) s
    = (Returned (caller, inr filesList), s1, tr1) ->
  file_metadata filesList name true mime disk ->
  run handle (DownloadFile token fileId cryptoInfo) s
    = (Returned (fileName, numBytes, None), s', tr) ->
  Forall (fun w => w.2 = Z.of_nat (length w.1)) (writes tr) ->
  fileName = name
  /\ exists plain,
      plaintexts tr = [plain]
      /\ written_bytes tr = plain
      /\ (Z.of_nat (length plain) < 2 ^ 63 -> numBytes = Z.of_nat (length plain)).
Proof.
  intros Hid Hlookup Hmeta Hrun. revert Hrun.
  found_file Hid Hlookup Hmeta.
  exec.
  all: intros Hrun; try discriminate Hrun.
  all: injection Hrun as ? ? ? ?; subst.
  all: simpl; intros Hfull.
  all: split; [reflexivity|]; eexists; split; [reflexivity|].
  all: unfold written_bytes; simpl.
  all: try (match goal with
            | H : bool_decide (_ = []) = true |- _ =>
                apply bool_decide_eq_true in H; subst
            end; split; [reflexivity|intros _; reflexivity]).
  all: inversion Hfull as [|? ? Hall _]; simpl in Hall; subst.
  all: rewrite Nat2Z.id, firstn_all, app_nil_r; split; [reflexivity|].
  all: intros Hfit; apply wrap64_small; lia.
Qed.

(** X14.  For a file marked encrypted, an error of the destination is
    not reported: when the ciphertext was read without error and the
    destination reports an error for the plaintext (with a count
    within the bytes it was handed), the call still returns the name
    and that count, without error. *)
Theorem encrypted_write_error_is_dropped
    token fileId cryptoInfo s caller filesList s1 tr1 name mime disk o s' tr e :
  fileId <> "" ->
  run handle (ApiRequest token "files.getById" (Some {[ "file" := VStr fileId ]})) s
    = (Returned (caller, inr filesList), s1, tr1) ->
  file_metadata filesList name true mime disk ->
  run handle (DownloadFile token fileId cryptoInfo) s = (o, s', tr) ->
  In e (write_errors tr) ->
  Forall (fun body => final body = None) (fetched_bodies tr) ->
  Forall (fun w => w.2 <= Z.of_nat (length w.1)) (writes tr) ->
  exists p n, writes tr = [(p, n)] /\ o = Returned (name, wrap64 n, None).
Proof.
  intros Hid Hlookup Hmeta Hrun. revert Hrun.
  found_file Hid Hlookup Hmeta.
  exec.
  all: intros Hrun; injection Hrun as ? ? ?; subst.
  all: simpl; intros Hin Hread Hcount; try contradiction.
  all: try (inversion Hcount as [|? ? Hle _]; simpl in Hle;
            match goal with H : (_ <? _) = true |- _ => apply Z.ltb_lt in H end;
            lia).
  all: try (inversion Hread as [|? ? Hend _]; congruence).
  all: eexists _, _; split; reflexivity.
Qed.

(** X15.  For a file marked encrypted, an error in reading the
    ciphertext does not stop the delivery: what was read is decrypted,
    and when that succeeds the plaintext is handed to the destination
    before the call returns the read error. *)
Theorem read_error_reported_after_delivery
    token fileId cryptoInfo s caller filesList s1 tr1 name mime disk o s' tr
    body e plain :
  fileId <> "" ->
  run handle (ApiRequest token "files.getById" (Some {[ "file" := VStr fileId ]})) s
    = (Returned (caller, inr filesList), s1, tr1) ->
  file_metadata filesList name true mime disk ->
  run handle (DownloadFile token fileId cryptoInfo) s = (o, s', tr) ->
  fetched_bodies tr = [body] ->
  final body = Some e ->
  plaintexts tr = [plain] ->
  plain <> [] ->
  Forall (fun w => w.2 <= Z.of_nat (length w.1)) (writes tr) ->
  (exists ring, decrypts tr = [(ring, content body)])
  /\ (exists n, writes tr = [(plain, n)])
  /\ o = Returned ("", 0, Some e).
Proof.
  intros Hid Hlookup Hmeta Hrun. revert Hrun.
  found_file Hid Hlookup Hmeta.
  exec.
  all: intros Hrun; injection Hrun as ? ? ?; subst.
  all: simpl; intros Hbody Hend Hplain Hne Hcount; try discriminate.
  all: injection Hbody as <-; injection Hplain as <-.
  all: try (match goal with
            | H : bool_decide (_ = []) = true |- _ =>
                apply bool_decide_eq_true in H; contradiction
            end).
  all: try (inversion Hcount as [|? ? Hle _]; simpl in Hle;
            match goal with H : (_ <? _) = true |- _ => apply Z.ltb_lt in H end;
            lia).
  all: try congruence.
  all: split; [eauto|]; split; [eauto|].
  all: match goal with
       | H : final ?b = Some ?a |- Returned (_, _, Some ?a) = _ =>
           rewrite Hend in H; injection H as ->
       end; reflexivity.
Qed.


(** X16.  For a file marked encrypted, the destination is written to
    only when no key ring is unlocked and uncleared: the plaintext is
    handed over after [ClearPrivateParams]. *)
Theorem plaintext_written_after_clear
    token fileId cryptoInfo s caller filesList s1 tr1 name mime disk o s' tr :
  fileId <> "" ->
  run handle (ApiRequest token "files.getById" (Some {[ "file" := VStr fileId ]})) s
    = (Returned (caller, inr filesList), s1, tr1) ->
  file_metadata filesList name true mime disk ->
  run handle (DownloadFile token fileId cryptoInfo) s = (o, s', tr) ->
  no_write_while_unlocked O tr.
Proof.
  intros Hid Hlookup Hmeta Hrun. revert Hrun.
  found_file Hid Hlookup Hmeta.
  exec.
  all: intros Hrun; injection Hrun as ? ? ?; subst.
  all: simpl; try (match goal with |- match ?x with _ => _ end => destruct x end).
  all: repeat split; reflexivity.
Qed.

End Properties.

(** ** Properties of the actions *)

Section ActionProperties.
Variable IsCryptoReady : CryptoInfo -> bool.
Context {St : Type}.
Variable handle : forall X, internal.cli_effect X -> St -> X * St.

(** Symbolic execution of an action, as for [DownloadFile]. *)
Ltac act_stuck t :=
  lazymatch t with
  | internal.and_then ?m _ => act_stuck m
  | internal.call_pkg ?m => act_stuck m
  | bind ?m _ => act_stuck m
  | defer _ ?m => act_stuck m
  | match ?x with _ => _ end => act_stuck x
  | andb ?a _ => act_stuck a
  | negb ?a => act_stuck a
  | handle ?X ?e ?s =>
      let x := fresh "x" in
      let s' := fresh "s" in
      destruct (handle X e s) as [x s']
  | _ => destruct t eqn:?
  end.

Ltac act_step :=
  first [ progress simpl
        | match goal with
          | |- context [internal.run_action handle ?m ?s] => act_stuck m
          | |- context [handle ?X ?e ?s] => act_stuck (handle X e s)
          end ].

Ltac act_exec := repeat act_step.

(** X17.  [ActionAskForToken]: when the terminal gives an empty entry
    without error, the action panics on [err.Error()] of the nil
    error; the token is not checked. *)
Theorem empty_token_entry_panics NotInteractive config s o s' tr :
  internal.run_action handle (internal.ActionAskForToken NotInteractive config) s
    = (o, s', tr) ->
  internal.passwords tr = [([], None)] ->
  o = Panicked "invalid memory address or nil pointer dereference"
  /\ internal.checks tr = [].
Proof.
  intros Hrun. revert Hrun.
  unfold internal.ActionAskForToken.
  act_exec.
  all: intros Hrun; injection Hrun as ? ? ?; subst.
  all: simpl; intros Hpw; try discriminate.
  all: inversion Hpw; subst; try discriminate.
  all: split; reflexivity.
Qed.

(** X18.  [ActionAskForToken]: a token that [CheckTokenAndAssign]
    rejects is stored in the configuration all the same, and no error
    line is printed. *)
Theorem rejected_token_is_stored NotInteractive config s o s' tr token e config' :
  internal.run_action handle (internal.ActionAskForToken NotInteractive config) s
    = (o, s', tr) ->
  internal.checks tr = [(token, Some e, config')] ->
  o = Returned {| internal.Token := token |}
  /\ internal.error_lines tr = []
  /\ exists password,
      internal.passwords tr = [(password, None)]
      /\ token = String.string_of_list_byte password.
Proof.
  intros Hrun. revert Hrun.
  unfold internal.ActionAskForToken.
  act_exec.
  all: intros Hrun; injection Hrun as ? ? ?; subst.
  all: simpl; intros Hcheck; try discriminate.
  all: inversion Hcheck; subst.
  all: split; [reflexivity|]; split; [reflexivity|].
  all: match goal with
       | H : bool_decide (_ = None) = true |- _ =>
           apply bool_decide_eq_true in H; subst
       end.
  all: eexists; split; reflexivity.
Qed.

(** X19.  [ActionDefault] with a token flag prints that the token is
    validated and saved whatever [CheckTokenAndAssign] answered, an
    error included, and prints nothing else. *)
Theorem token_flag_reports_success Auth config s o s' tr :
  internal.run_action handle (internal.ActionDefault Auth config) s = (o, s', tr) ->
  Auth <> "" ->
  internal.printed tr = [(false, internal.Text "Token is validated and saved" [])]
  /\ exists err config',
      internal.checks tr = [(internal.Token config, err, config')]
      /\ o = Returned config'.
Proof.
  intros Hrun HAuth. revert Hrun.
  unfold internal.ActionDefault.
  rewrite bool_decide_false by assumption.
  act_exec.
  all: intros Hrun; injection Hrun as ? ? ?; subst.
  all: split; [reflexivity|]; eexists _, _; split; reflexivity.
Qed.



(** X22.  [ActionPing] prints one line: that the API is alive when
    the ping gave a response read to its end whose status is 200 or
    whose body is "Pong!", and, as an error line, that it is not alive
    otherwise. *)
Theorem ping_prints_one_line s :
  let '(o, _, tr) := internal.run_action handle internal.ActionPing s in
  let alive :=
    exists resp,
      fetched (internal.pkg_events tr) = [resp]
      /\ final (Body resp) = None
      /\ (StatusCode resp = 200
          \/ String.string_of_list_byte (content (Body resp)) = "Pong!") in
  o = Returned tt
  /\ (internal.printed tr = [(false, internal.Text "API is alive" [])] /\ alive
      \/ internal.printed tr = [(true, internal.Text "API is not alive" [])]
         /\ ~ alive).
Proof.
  unfold internal.ActionPing, pkg.CheckApiAlive, pkg.io_ReadAll.
  act_exec.
  all: split; [reflexivity|].
  - right. split; [reflexivity|]. intros (resp & Hresp & _). discriminate Hresp.
  - right. split; [reflexivity|].
    intros (resp & [= <-] & Hend & _). congruence.
  - left. split; [reflexivity|]. eexists. split; [reflexivity|].
    split; [assumption|].
    match goal with H : (_ || _) = true |- _ =>
      apply orb_true_iff in H; destruct H as [Hstatus|Hbody] end.
    + left. apply Z.eqb_eq. exact Hstatus.
    + right. apply bool_decide_eq_true in Hbody. exact Hbody.
  - right. split; [reflexivity|].
    intros (resp & [= <-] & _ & Halive).
    match goal with H : (_ || _) = false |- _ =>
      apply orb_false_iff in H; destruct H as [Hstatus Hbody] end.
    apply Z.eqb_neq in Hstatus. apply bool_decide_eq_false in Hbody.
    destruct Halive; contradiction.
Qed.

(** X23.  [ActionUpload] starts at most one upload, and never one
    without a name.  From standard input the name is the name flag;
    from a file, the path is not empty, [os.Stat] did not call it a
    directory, and the name is the name flag or else the path.  The
    disk is the identifier [DiskIdOrDefault] answered, whether or not
    it answered with an error. *)
Theorem upload_has_a_name
    UploadDisk UploadName Upload UploadFolder config isStdIn s o s' tr
    name disk reader :
  internal.run_action handle
    (internal.ActionUpload UploadDisk UploadName Upload UploadFolder config isStdIn) s
    = (o, s', tr) ->
  In (name, disk, reader) (internal.uploads tr) ->
  internal.uploads tr = [(name, disk, reader)]
  /\ name <> ""
  /\ (exists d e, internal.disks tr = [(disk, d, e)])
  /\ match reader with
     | internal.Stdin => isStdIn = true /\ name = UploadName
     | internal.FileAt path =>
         isStdIn = false /\ path <> ""
         /\ internal.stats tr = [(path, false)]
         /\ name = (if bool_decide (UploadName = "") then path else UploadName)
     end.
Proof.
  intros Hrun. revert Hrun.
  unfold internal.ActionUpload.
  act_exec.
  all: intros Hrun; injection Hrun as ? ? ?; subst.
  all: simpl; intros Hin; try contradiction.
  all: destruct Hin as [Heq|[]]; inversion Heq; subst.
  all: repeat match goal with
              | H : bool_decide _ = true |- _ => apply bool_decide_eq_true in H
              | H : bool_decide _ = false |- _ => apply bool_decide_eq_false in H
              end.
  all: split; [reflexivity|]; split; [try assumption|]; (split; [eauto|]).
  all: repeat split; try reflexivity; assumption.
Qed.

(** X24.  [ActionUpload] prints at most one line, and only error lines:
    none when the upload it started succeeded, the error of the upload
    when it failed, and one refusal when it started no upload. *)
Theorem upload_prints_at_most_one_error
    UploadDisk UploadName Upload UploadFolder config isStdIn s :
  let '(o, _, tr) :=
    internal.run_action handle
      (internal.ActionUpload UploadDisk UploadName Upload UploadFolder config isStdIn) s in
  o = Returned tt
  /\ (internal.upload_results tr = [None] /\ internal.printed tr = []
      \/ (exists e, internal.upload_results tr = [Some e]
                    /\ internal.printed tr = [(true, internal.ErrorText e)])
      \/ (exists format, internal.upload_results tr = []
                         /\ internal.printed tr = [(true, internal.Text format [])])).
Proof.
  unfold internal.ActionUpload.
  act_exec.
  all: split; [reflexivity|].
  all: first [ left; split; reflexivity
             | right; left; eexists; split; reflexivity
             | right; right; eexists; split; reflexivity ].
Qed.
End ActionProperties.

(** ** Examples *)

Lemma metadata_of_shape name encrypted :
  file_metadata (metadata_of name encrypted) name encrypted "application/pdf" "d1".
Proof.
  split.
  - reflexivity.
  - exists one. split; reflexivity.
  - eexists _, _. repeat split; reflexivity.
Qed.

(** C5 on an example: an encrypted file, no CryptoInfo. *)
Lemma nil_crypto_info_stops_after_lookup_witness :
  exists s1 tr1,
    download secret_world None
    = (Returned ("", 0, Some (errors_New
         "file is encrypted and no any crypto cryptoInfo provided")), s1, tr1)
    /\ length (requests tr1) = 1%nat /\ fetches tr1 = [].
Proof.
  eexists _, _.
  eapply (nil_crypto_info_stops_after_lookup sample_json ready_when_key
            (world_handle secret_world) "tok" "f1" O _ (metadata_of "secret.bin" true)).
  - discriminate.
  - vm_compute. reflexivity.
  - apply metadata_of_shape.
Defined.

(** C1 on an example: an encrypted file, a ready CryptoInfo, and a
    ciphertext that does not decrypt. *)
Lemma no_write_without_decryption_witness :
  exists s' tr,
    download garbled_world (Some ready_info)
    = (Returned ("", 0, Some decrypt_error), s', tr)
    /\ decrypt_errors tr = [decrypt_error]
    /\ writes tr = [].
Proof.
  eassert (Hrun : download garbled_world (Some ready_info) = (_, _, _)) by reflexivity.
  eassert (Hlookup : run (world_handle garbled_world)
             (pkg.ApiRequest sample_json "tok" "files.getById"
                (Some {[ "file" := VStr "f1" ]})) O
           = (Returned (_, inr (metadata_of "secret.bin" true)), _, _))
    by reflexivity.
  destruct (no_write_without_decryption sample_json ready_when_key
              (world_handle garbled_world)
              "tok" "f1" (Some ready_info) O _ _ _ _ _ _ _ _ _ _
              ltac:(discriminate) Hlookup (metadata_of_shape _ _) Hrun)
    as [_ Hfail].
  destruct (Hfail decrypt_error) as [Hwrites Ho].
  - vm_compute. left. reflexivity.
  - eexists _, _. split; [|split].
    + rewrite Hrun. rewrite Ho. reflexivity.
    + vm_compute. reflexivity.
    + exact Hwrites.
Defined.

(** C6 on an example: a ready CryptoInfo whose passphrase the key-ring
    builder refuses.  The content is fetched, nothing is written. *)
Lemma wrong_passphrase_delivers_nothing_witness :
  exists s' tr,
    download (refusing secret_world) (Some ready_info)
    = (Returned ("", 0, Some unlock_error), s', tr)
    /\ length (fetches tr) = 1%nat
    /\ writes tr = [].
Proof.
  eassert (Hrun : download (refusing secret_world) (Some ready_info) = (_, _, _))
    by reflexivity.
  eassert (Hlookup : run (world_handle (refusing secret_world))
             (pkg.ApiRequest sample_json "tok" "files.getById"
                (Some {[ "file" := VStr "f1" ]})) O
           = (Returned (_, inr (metadata_of "secret.bin" true)), _, _))
    by reflexivity.
  destruct (wrong_passphrase_delivers_nothing sample_json ready_when_key
              (world_handle (refusing secret_world))
              "tok" "f1" (Some ready_info) O _ _ _ _ _ _ _ _ _ _
              ltac:(discriminate) Hlookup (metadata_of_shape _ _) Hrun)
    as (Hwrites & _ & _ & Hring & _).
  - vm_compute. intros [H|[]]. discriminate H.
  - destruct (Hring unlock_error) as [Ho Hfetch].
    + vm_compute. left. reflexivity.
    + eexists _, _. split; [|split].
      * rewrite Hrun. rewrite Ho. reflexivity.
      * exact Hfetch.
      * exact Hwrites.
Defined.

(** C6 as stated fails for a CryptoInfo that holds the password only:
    the refusal comes from [GetCryptoInfo], before the download URL is
    requested, and the ciphertext is never fetched. *)
Lemma wrong_passphrase_without_fetch :
  exists s' tr,
    download (refusing secret_world) (Some password_only)
    = (Returned ("", 0, Some (fmt_Errorf_w "failed to get crypto info: %w" unlock_error)),
       s', tr)
    /\ fetches tr = []
    /\ length (requests tr) = 1%nat.
Proof.
  eexists _, _. split; [|split].
  - vm_compute. reflexivity.
  - reflexivity.
  - reflexivity.
Qed.

(** C9 on an example: report.pdf, four bytes in two chunks. *)
Lemma plain_file_passes_through_witness :
  exists s' tr,
    download report_world None = (Returned ("report.pdf", 4, None), s', tr)
    /\ written_bytes tr = bytes "abcd".
Proof.
  eassert (Hrun : download report_world None = (Returned (_, _, None), _, _))
    by reflexivity.
  eassert (Hlookup : run (world_handle report_world)
             (pkg.ApiRequest sample_json "tok" "files.getById"
                (Some {[ "file" := VStr "f1" ]})) O
           = (Returned (_, inr (metadata_of "report.pdf" false)), _, _))
    by reflexivity.
  destruct (plain_file_passes_through sample_json ready_when_key
              (world_handle report_world) "tok" "f1" None O _ _ _ _ _ _ _ _ _ _ _
              ltac:(discriminate) Hlookup (metadata_of_shape _ _) Hrun)
    as (Hname & body & Hbody & Hbytes & Hcount).
  injection Hbody as <-.
  eexists _, _. split.
  - exact Hrun.
  - rewrite Hbytes. reflexivity.
Defined.

(** C9 as stated fails when the copy breaks off: the destination took
    one byte of the four that were fetched, and the count returned is
    zero. *)
Lemma failed_copy_is_partial :
  exists s' tr,
    download (failing_writer report_world) None
    = (Returned ("", 0, Some disk_full), s', tr)
    /\ fetched_bodies tr = [report]
    /\ written_bytes tr = bytes "a"
    /\ written_bytes tr <> content report
    /\ 0 <> Z.of_nat (length (written_bytes tr)).
Proof.
  eexists _, _. split; [|split; [|split; [|split]]].
  - vm_compute. reflexivity.
  - reflexivity.
  - reflexivity.
  - discriminate.
  - discriminate.
Qed.

(** C3 fails on the code.  An encrypted file, a ready CryptoInfo, a
    key ring that opens: when [Decrypt] fails the call returns its
    error and the unlocked ring is never cleared; when [Decrypt]
    succeeds the ring is cleared. *)
Theorem decrypt_failure_skips_clear :
  (download garbled_world (Some ready_info)).1.1
  = Returned ("", 0, Some decrypt_error)
  /\ unlocked (download garbled_world (Some ready_info)).2 = [ring1]
  /\ clears (download garbled_world (Some ready_info)).2 = []
  /\ (download secret_world (Some ready_info)).1.1
     = Returned ("secret.bin", 5, None)
  /\ clears (download secret_world (Some ready_info)).2 = [ring1].
Proof. vm_compute. repeat split; reflexivity. Qed.

(** C7 fails on the code.  A lookup response whose list element is not
    an object, or whose "encrypted" field is not a bool: the type
    assertion panics; no error is returned. *)
Theorem malformed_metadata_panics :
  (download (lookup_world not_an_object) None).1.1
  = Panicked "interface conversion: interface {} is not map[string]interface {}"
  /\ (download (lookup_world wrong_field) None).1.1
     = Panicked "interface conversion: interface {} is not bool".
Proof. vm_compute. split; reflexivity. Qed.

(** C10 as stated fails where the key is there: the caller's map comes
    back as it went in. *)
Lemma token_present_map_not_mutated :
  exists res s1 tr,
    run (world_handle secret_world)
        (pkg.ApiRequest sample_json "other" "files.download"
           (Some {[ "token" := VStr "mine"; "file" := VStr "f1" ]})) O
    = (Returned (Some {[ "token" := VStr "mine"; "file" := VStr "f1" ]}, res), s1, tr)
    /\ ~ mutated (Some {[ "token" := VStr "mine"; "file" := VStr "f1" ]})
                 (Some {[ "token" := VStr "mine"; "file" := VStr "f1" ]}).
Proof.
  eexists _, _, _. split.
  - vm_compute. reflexivity.
  - intros H. apply H. reflexivity.
Qed.

(** C4 on an example: a password, no key; the resolver refuses. *)
Lemma auth_check_precedence_witness :
  exists s2 tr,
    download (refusing secret_world) (Some password_only)
    = (Returned ("", 0, Some (fmt_Errorf_w "failed to get crypto info: %w"
                                unlock_error)), s2, tr).
Proof.
  eexists _, _.
  eapply (auth_check_precedence sample_json ready_when_key
            (world_handle (refusing secret_world))
            "tok" "f1" (Some password_only) O _ (metadata_of "secret.bin" true)).
  - discriminate.
  - vm_compute. reflexivity.
  - apply metadata_of_shape.
  - reflexivity.
Defined.

(** C8 on an example: the server reports no file. *)
Lemma zero_count_is_not_found_witness :
  exists s1 tr1,
    download (lookup_world no_file) None
    = (Returned ("", 0, Some not_found_error), s1, tr1)
    /\ length (requests tr1) = 1%nat /\ fetches tr1 = [].
Proof.
  eexists _, _.
  eapply (zero_count_is_not_found sample_json ready_when_key
            (world_handle (lookup_world no_file)) "tok" "f1" None O).
  - discriminate.
  - vm_compute. reflexivity.
  - reflexivity.
  - left. exists (S754_zero false). split; reflexivity.
Defined.

(** ** Examples for the further properties *)

(** X3 on an example: nothing can be serialised. *)
Lemma unserialisable_request_still_marks_map_witness :
  run (world_handle secret_world)
      (pkg.ApiRequest no_json "tok" "files.get" (Some {[ "disk" := VStr "d1" ]})) O
  = (Returned (Some {[ "token" := VStr "tok"; "disk" := VStr "d1" ]},
              inl (errors_New "failed to convert json to reader")), O, []).
Proof.
  apply (unserialisable_request_still_marks_map no_json (world_handle secret_world)
           "tok" "files.get" {[ "disk" := VStr "d1" ]} O).
  - reflexivity.
  - reflexivity.
Defined.

(** X4 on an example: the map of a first call, used again with another
    token. *)
Lemma reused_map_keeps_first_token_witness :
  exists caller1 res1 s1 tr1 res2 s2 tr2,
    run (world_handle secret_world)
        (pkg.ApiRequest sample_json "first" "files.get"
           (Some {[ "disk" := VStr "d1" ]})) O
    = (Returned (caller1, res1), s1, tr1)
    /\ run (world_handle secret_world)
          (pkg.ApiRequest sample_json "second" "files.get" caller1) s1
       = (Returned (caller1, res2), s2, tr2)
    /\ requests tr2 = requests tr1.
Proof.
  eassert (Hfirst : run (world_handle secret_world)
             (pkg.ApiRequest sample_json "first" "files.get"
                (Some {[ "disk" := VStr "d1" ]})) O
           = (Returned (_, _), _, _)) by reflexivity.
  pose proof (reused_map_keeps_first_token sample_json (world_handle secret_world)
                "first" "files.get" "second" "files.get" _ O _ _ _ _ Hfirst) as H.
  destruct (run (world_handle secret_world)
              (pkg.ApiRequest sample_json "second" "files.get" _) _)
    as [[o2 s2] tr2] eqn:Hsecond.
  destruct H as [Hreq [res2 ->]].
  eexists _, _, _, _, _, _, _. split; [exact Hfirst|]. split; [exact Hsecond|].
  rewrite Hreq. reflexivity.
Defined.

Ltac sample_run w ci :=
  let Hrun := fresh "Hrun" in
  eassert (Hrun : download w ci = (_, _, _)) by reflexivity.

Ltac sample_lookup w meta :=
  let Hlookup := fresh "Hlookup" in
  eassert (Hlookup : run (world_handle w)
             (pkg.ApiRequest sample_json "tok" "files.getById"
                (Some {[ "file" := VStr "f1" ]})) O
           = (Returned (_, inr meta), _, _)) by reflexivity.

(** X7 on an example: the content server answers 404 for an encrypted
    file. *)
Lemma bad_status_stops_delivery_witness :
  exists s' tr,
    download (missing_content secret_world) (Some ready_info)
    = (Returned ("", 0, Some (fmt_Errorf_s "bad response status code: %s"
                                "404 Not Found")), s', tr)
    /\ writes tr = [] /\ keyring_calls tr = [].
Proof.
  sample_run (missing_content secret_world) (Some ready_info).
  edestruct (bad_status_stops_delivery sample_json ready_when_key
               (world_handle (missing_content secret_world))
               "tok" "f1" (Some ready_info) O _ _ _ not_found_response Hrun)
    as (Ho & Hw & Hk & _).
  - vm_compute. left. reflexivity.
  - discriminate.
  - eexists _, _. split; [|split].
    + rewrite Hrun. rewrite Ho. reflexivity.
    + exact Hw.
    + exact Hk.
Defined.

(** X8 on an example: the lookup is denied. *)
Lemma api_error_ends_download_witness :
  exists s' tr,
    download (lookup_world denied) None
    = (Returned ("", 0, Some (errors_New "access denied")), s', tr)
    /\ fetches tr = [].
Proof.
  sample_run (lookup_world denied) (@None CryptoInfo).
  edestruct (api_error_ends_download sample_json ready_when_key
               (world_handle (lookup_world denied))
               "tok" "f1" None O _ _ _ denied Hrun)
    as (Ho & Hf & _).
  - vm_compute. left. reflexivity.
  - discriminate.
  - eexists _, _. split.
    + rewrite Hrun. rewrite Ho. reflexivity.
    + exact Hf.
Defined.

(** X9 on an example: the plain file. *)
Lemma fetched_url_is_the_servers_witness :
  exists o s' tr,
    download report_world None = (o, s', tr)
    /\ fetches tr = ["https://cdn.example/f1"]
    /\ length (requests tr) = 2%nat.
Proof.
  sample_run report_world (@None CryptoInfo).
  edestruct (fetched_url_is_the_servers sample_json ready_when_key
               (world_handle report_world)
               "tok" "f1" None O _ _ _ "https://cdn.example/f1" Hrun)
    as (Hf & Hn & _).
  - vm_compute. left. reflexivity.
  - eexists _, _, _. split; [exact Hrun|]. split; [exact Hf|exact Hn].
Defined.

(** X10 on an example: the plain file, downloaded with a CryptoInfo. *)
Lemma plain_file_needs_no_keys_witness :
  exists o s' tr,
    download report_world (Some ready_info) = (o, s', tr)
    /\ resolve_results tr = [] /\ keyring_calls tr = []
    /\ decrypts tr = [] /\ clears tr = [].
Proof.
  sample_run report_world (Some ready_info).
  sample_lookup report_world (metadata_of "report.pdf" false).
  eexists _, _, _. split; [exact Hrun|].
  eapply (plain_file_needs_no_keys sample_json ready_when_key
            (world_handle report_world) "tok" "f1" (Some ready_info) O).
  - discriminate.
  - exact Hlookup.
  - apply metadata_of_shape.
  - exact Hrun.
Defined.

(** X11 on an example: the encrypted file and a ready CryptoInfo. *)
Lemma ready_info_is_used_as_given_witness :
  exists o s' tr,
    download secret_world (Some ready_info) = (o, s', tr)
    /\ resolve_results tr = []
    /\ (keyring_calls tr = []
        \/ keyring_calls tr = [("pub", "raw", bytes "passphrase")]).
Proof.
  sample_run secret_world (Some ready_info).
  sample_lookup secret_world (metadata_of "secret.bin" true).
  eexists _, _, _. split; [exact Hrun|].
  eapply (ready_info_is_used_as_given sample_json ready_when_key
            (world_handle secret_world) "tok" "f1" ready_info O).
  - discriminate.
  - exact Hlookup.
  - apply metadata_of_shape.
  - reflexivity.
  - exact Hrun.
Defined.

(** X12 on an example: the encrypted file and a password; the resolver
    hands out a CryptoInfo of its own. *)
Lemma resolved_info_replaces_callers_witness :
  exists o s' tr,
    download secret_world (Some (mkCryptoInfo "mine" "mine" "passphrase" "")) = (o, s', tr)
    /\ (keyring_calls tr = []
        \/ keyring_calls tr = [("pub", "raw", bytes "passphrase")]).
Proof.
  sample_run secret_world (Some (mkCryptoInfo "mine" "mine" "passphrase" "")).
  sample_lookup secret_world (metadata_of "secret.bin" true).
  eexists _, _, _. split; [exact Hrun|].
  eapply (resolved_info_replaces_callers sample_json ready_when_key
            (world_handle secret_world) "tok" "f1" _ O _ _ _ _ _ _ _ _ _ _
            (mkCryptoInfo "enc" "pub" "passphrase" "raw")).
  - discriminate.
  - exact Hlookup.
  - apply metadata_of_shape.
  - exact Hrun.
  - vm_compute. left. reflexivity.
Defined.

(** X13 on an example: the encrypted file, decrypted and delivered. *)
Lemma encrypted_file_delivers_plaintext_witness :
  exists s' tr,
    download secret_world (Some ready_info)
    = (Returned ("secret.bin", 5, None), s', tr)
    /\ written_bytes tr = bytes "plain".
Proof.
  eassert (Hrun : download secret_world (Some ready_info)
                  = (Returned (_, _, None), _, _)) by reflexivity.
  sample_lookup secret_world (metadata_of "secret.bin" true).
  edestruct (encrypted_file_delivers_plaintext sample_json ready_when_key
               (world_handle secret_world) "tok" "f1" (Some ready_info) O
               _ _ _ _ _ _ _ _ _ _ _
               ltac:(discriminate) Hlookup (metadata_of_shape _ _) Hrun)
    as (_ & plain & Hplain & Hbytes & _).
  - vm_compute. repeat constructor.
  - injection Hplain as <-.
    eexists _, _. split; [exact Hrun|]. rewrite Hbytes. reflexivity.
Defined.

(** X14 on an example: the destination takes one byte of the plaintext
    and fails; the call reports success and the count one. *)
Lemma encrypted_write_error_is_dropped_witness :
  exists s' tr,
    download (failing_writer secret_world) (Some ready_info)
    = (Returned ("secret.bin", 1, None), s', tr)
    /\ write_errors tr = [disk_full].
Proof.
  sample_run (failing_writer secret_world) (Some ready_info).
  sample_lookup (failing_writer secret_world) (metadata_of "secret.bin" true).
  edestruct (encrypted_write_error_is_dropped sample_json ready_when_key
               (world_handle (failing_writer secret_world))
               "tok" "f1" (Some ready_info) O
               _ _ _ _ _ _ _ _ _ _ disk_full
               ltac:(discriminate) Hlookup (metadata_of_shape _ _) Hrun)
    as (p & n & Hw & Ho).
  - vm_compute. left. reflexivity.
  - vm_compute. repeat constructor.
  - vm_compute. repeat constructor. discriminate.
  - eexists _, _. split.
    + rewrite Hrun. rewrite Ho.
      injection Hw as _ <-. reflexivity.
    + reflexivity.
Defined.

(** X15 on an example: the ciphertext breaks off, what was read
    decrypts. *)
Lemma read_error_reported_after_delivery_witness :
  exists s' tr n,
    download broken_world (Some ready_info)
    = (Returned ("", 0, Some read_error), s', tr)
    /\ writes tr = [(bytes "plain", n)].
Proof.
  sample_run broken_world (Some ready_info).
  sample_lookup broken_world (metadata_of "secret.bin" true).
  edestruct (read_error_reported_after_delivery sample_json ready_when_key
               (world_handle broken_world) "tok" "f1" (Some ready_info) O
               _ _ _ _ _ _ _ _ _ _
               (mkStream [bytes "cipher"] (Some read_error)) read_error
               (bytes "plain")
               ltac:(discriminate) Hlookup (metadata_of_shape _ _) Hrun)
    as (_ & [n Hw] & Ho).
  - reflexivity.
  - reflexivity.
  - reflexivity.
  - discriminate.
  - vm_compute. repeat constructor. discriminate.
  - eexists _, _, n. split.
    + rewrite Hrun. rewrite Ho. reflexivity.
    + exact Hw.
Defined.

(** X16 on an example: the encrypted file, decrypted and delivered. *)
Lemma plaintext_written_after_clear_witness :
  exists o s' tr,
    download secret_world (Some ready_info) = (o, s', tr)
    /\ no_write_while_unlocked O tr.
Proof.
  sample_run secret_world (Some ready_info).
  sample_lookup secret_world (metadata_of "secret.bin" true).
  eexists _, _, _. split; [exact Hrun|].
  eapply (plaintext_written_after_clear sample_json ready_when_key
            (world_handle secret_world) "tok" "f1" (Some ready_info) O).
  - discriminate.
  - exact Hlookup.
  - apply metadata_of_shape.
  - exact Hrun.
Defined.

(** X17 on an example: Enter is pressed at the token prompt. *)
Lemma empty_token_entry_panics_witness :
  exists o s' tr,
    internal.run_action (cli_handle (session [] true))
      (internal.ActionAskForToken false (internal.mkConfig "")) O
    = (o, s', tr)
    /\ o = Panicked "invalid memory address or nil pointer dereference".
Proof.
  eassert (Hrun : internal.run_action (cli_handle (session [] true))
             (internal.ActionAskForToken false (internal.mkConfig "")) O
           = (_, _, _)) by reflexivity.
  destruct (empty_token_entry_panics (cli_handle (session [] true))
              false (internal.mkConfig "") O _ _ _ Hrun eq_refl) as [Ho _].
  eexists _, _, _. split; [exact Hrun|exact Ho].
Defined.

(** X18 on an example: a token the server rejects. *)
Lemma rejected_token_is_stored_witness :
  exists o s' tr,
    internal.run_action (cli_handle (session (bytes "stale") true))
      (internal.ActionAskForToken false (internal.mkConfig "")) O
    = (o, s', tr)
    /\ o = Returned (internal.mkConfig "stale")
    /\ internal.error_lines tr = [].
Proof.
  eassert (Hrun : internal.run_action (cli_handle (session (bytes "stale") true))
             (internal.ActionAskForToken false (internal.mkConfig "")) O
           = (_, _, _)) by reflexivity.
  destruct (rejected_token_is_stored (cli_handle (session (bytes "stale") true))
              false (internal.mkConfig "") O _ _ _ "stale" invalid_token
              (internal.mkConfig "") Hrun eq_refl) as (Ho & Hlines & _).
  eexists _, _, _. split; [exact Hrun|]. split; [exact Ho|exact Hlines].
Defined.

(** X19 on an example: a token flag the server rejects. *)
Lemma token_flag_reports_success_witness :
  exists o s' tr,
    internal.run_action (cli_handle (session [] true))
      (internal.ActionDefault "stale" (internal.mkConfig "stale")) O
    = (o, s', tr)
    /\ internal.checks tr = [("stale", Some invalid_token, internal.mkConfig "stale")]
    /\ internal.printed tr
       = [(false, internal.Text "Token is validated and saved" [])].
Proof.
  eassert (Hrun : internal.run_action (cli_handle (session [] true))
             (internal.ActionDefault "stale" (internal.mkConfig "stale")) O
           = (_, _, _)) by reflexivity.
  destruct (token_flag_reports_success (cli_handle (session [] true))
              "stale" (internal.mkConfig "stale") O _ _ _ Hrun ltac:(discriminate))
    as (Hprinted & _).
  eexists _, _, _. split; [exact Hrun|]. split; [reflexivity|exact Hprinted].
Defined.



(** X23 on an example: a file, no name flag. *)
Lemma upload_has_a_name_witness :
  exists o s' tr,
    internal.run_action (cli_handle (session [] true))
      (internal.ActionUpload "" "" "notes.txt" "" (internal.mkConfig "tok") false) O
    = (o, s', tr)
    /\ internal.uploads tr = [("notes.txt", "d1", internal.FileAt "notes.txt")].
Proof.
  eassert (Hrun : internal.run_action (cli_handle (session [] true))
             (internal.ActionUpload "" "" "notes.txt" ""
                (internal.mkConfig "tok") false) O
           = (_, _, _)) by reflexivity.
  destruct (upload_has_a_name (cli_handle (session [] true))
              "" "" "notes.txt" "" (internal.mkConfig "tok") false O _ _ _
              "notes.txt" "d1" (internal.FileAt "notes.txt") Hrun)
    as (Huploads & _).
  - left. reflexivity.
  - eexists _, _, _. split; [exact Hrun|exact Huploads].
Defined.
